(** * PyTabular: the [Tabular] facade and the [PyTable] wrappers

    A shallow embedding of [pytabular/pytabular.py] and [pytabular/table.py].
    The Python code is a script over a native object model (the Tabular
    Object Model reached through pythonnet).  The embedding keeps the
    script as it is written and gives the native side a small executable
    model: a store of native objects with identity, and a trace of the
    commands sent to the server. *)

From stdpp Require Import base option list strings sorting gmap.
From Stdlib Require Import Ascii ZArith Lia.

Local Open Scope string_scope.
Local Open Scope list_scope.

(** ** Python values that cross the boundary: exceptions and outcomes *)

Module Py.

(** The exceptions the modelled code can meet. *)
Inductive exn : Type :=
| AttributeError (attr : string)   (* object has no attribute [attr] *)
| IndexError                        (* list index out of range *)
| KeyError (key : string)
| ValueError (msg : string)
| TypeError (msg : string)
| Exception_ (msg : string)         (* [raise Exception(msg)] *)
| NativeError (msg : string).       (* raised inside the native runtime *)

(** A statement either completes with a value or raises. *)
Inductive outcome (A : Type) : Type :=
| Return (a : A)
| Raise (e : exn).
Arguments Return {A} a.
Arguments Raise {A} e.

(** Statements run over a state [S]; the state reached so far survives
    a raise, as mutations of Python objects do. *)
Definition M (S A : Type) : Type := S -> outcome A * S.

Definition ret {S A} (a : A) : M S A := fun s => (Return a, s).

Definition raise {S A} (e : exn) : M S A := fun s => (Raise e, s).

Definition bind {S A B} (c : M S A) (k : A -> M S B) : M S B :=
  fun s =>
    match c s with
    | (Return a, s') => k a s'
    | (Raise e, s') => (Raise e, s')
    end.

(** [try: c  except Exception: h] *)
Definition try_except {S A} (c : M S A) (h : exn -> M S A) : M S A :=
  fun s =>
    match c s with
    | (Return a, s') => (Return a, s')
    | (Raise e, s') => h e s'
    end.

Definition get {S} : M S S := fun s => (Return s, s).
Definition gets {S A} (f : S -> A) : M S A := fun s => (Return (f s), s).
Definition modify {S} (f : S -> S) : M S unit := fun s => (Return tt, f s).

(** [for x in xs: body x] *)
Fixpoint for_each {S A} (xs : list A) (body : A -> M S unit) : M S unit :=
  match xs with
  | [] => ret tt
  | x :: rest => bind (body x) (fun _ => for_each rest body)
  end.

(** [[f x for x in xs]] where evaluating [f x] may raise or touch the
    state. *)
Fixpoint comprehension {S A B} (xs : list A) (f : A -> M S B) : M S (list B) :=
  match xs with
  | [] => ret []
  | x :: rest =>
      bind (f x) (fun y =>
      bind (comprehension rest f) (fun ys => ret (y :: ys)))
  end.

(** [[f x for x in xs if p x]] where evaluating [p x] and [f x] may
    raise or touch the state; [p x] and [f x] run before the next
    element is looked at. *)
Fixpoint comprehension_if {S A B} (xs : list A) (p : A -> M S bool) (f : A -> M S B)
    : M S (list B) :=
  match xs with
  | [] => ret []
  | x :: rest =>
      bind (p x) (fun b =>
      if b : bool
      then bind (f x) (fun y =>
           bind (comprehension_if rest p f) (fun ys => ret (y :: ys)))
      else comprehension_if rest p f)
  end.

End Py.

Import Py.

Declare Scope py_scope.
Delimit Scope py_scope with py.
Notation "x <- c ;; k" := (bind c (fun x => k))
  (at level 100, c at next level, right associativity) : py_scope.
Notation "c ;; k" := (bind c (fun _ => k))
  (at level 100, right associativity) : py_scope.
Local Open Scope py_scope.

(** ** Strings: the pieces of [str] the code uses *)

Module Str.

Definition newline : ascii := ascii_of_nat 10.

(** The one-character string holding a double quote. *)
Definition quote : string := String (ascii_of_nat 34) EmptyString.

(** [s.split(sep)] for a one-character separator: every separator ends
    a piece, so [n] separators give [n + 1] pieces. *)
Fixpoint split (sep : ascii) (s : string) : list string :=
  match s with
  | EmptyString => [EmptyString]
  | String c rest =>
      if Ascii.eqb c sep then EmptyString :: split sep rest
      else match split sep rest with
           | piece :: pieces => String c piece :: pieces
           | [] => [String c EmptyString]
           end
  end.

(** [sep.join(pieces)] *)
Fixpoint join (sep : ascii) (pieces : list string) : string :=
  match pieces with
  | [] => EmptyString
  | [piece] => piece
  | piece :: rest => piece +:+ String sep (join sep rest)
  end.

(** [needle in hay] *)
Fixpoint contains (needle hay : string) : bool :=
  String.prefix needle hay ||
  match hay with
  | EmptyString => false
  | String _ rest => contains needle rest
  end.

(** [strip_suffix s suffix] is [Some p] exactly when [s = p + suffix]. *)
Fixpoint strip_suffix (s suffix : string) : option string :=
  if String.eqb s suffix then Some EmptyString
  else match s with
       | EmptyString => None
       | String c rest => String c <$> strip_suffix rest suffix
       end.

End Str.

(** ** The native side: a store of Tabular Object Model metadata

    Python holds references to native objects, and the scripts rely on
    that: a table removed from the model is still the table a permission
    points to, a clone is renamed before it is added.  Tables,
    relationships and table permissions therefore live in append-only
    heaps, the position being the identity of the object, and the
    collections of the model list identities.  A column, partition,
    measure or hierarchy is a slot of its table. *)

Module TOM.

Inductive ColumnType : Type := RowNumber | Data | Calculated | CalculatedTableColumn.

Global Instance ColumnType_eq_dec : EqDecision ColumnType.
Proof. solve_decision. Defined.

Record Column : Type := {
  col_Name : string;
  col_Type : ColumnType;
}.

Record Partition : Type := {
  part_Name : string;
  part_RefreshedTime : Z;
}.

Record Table : Type := {
  tbl_Name : string;
  tbl_Columns : list Column;
  tbl_Partitions : list Partition;
  tbl_Measures : list string;
  tbl_Hierarchies : list string;
}.

(** A column object: its table and its slot there. *)
Definition ColRef : Type := nat * nat.

Record Relationship : Type := {
  rel_Name : string;
  rel_FromColumn : option ColRef;
  rel_ToColumn : option ColRef;
}.

Record ColumnPermission : Type := {
  cp_Column : option ColRef;
}.

Record TablePermission : Type := {
  tp_Table : option nat;
  tp_ColumnPermissions : list ColumnPermission;
}.

Record Role : Type := {
  role_Name : string;
  role_TablePermissions : list nat;
}.

Record Model : Type := {
  Name : string;
  table_heap : list Table;
  Tables : list nat;
  rel_heap : list Relationship;
  Relationships : list nat;
  perm_heap : list TablePermission;
  Roles : list Role;
  Cultures : list string;
}.

Global Instance Column_inhabited : Inhabited Column :=
  populate {| col_Name := ""; col_Type := Data |}.
Global Instance Partition_inhabited : Inhabited Partition :=
  populate {| part_Name := ""; part_RefreshedTime := 0 |}.
Global Instance Table_inhabited : Inhabited Table :=
  populate {| tbl_Name := ""; tbl_Columns := []; tbl_Partitions := [];
              tbl_Measures := []; tbl_Hierarchies := [] |}.
Global Instance Relationship_inhabited : Inhabited Relationship :=
  populate {| rel_Name := ""; rel_FromColumn := None; rel_ToColumn := None |}.
Global Instance ColumnPermission_inhabited : Inhabited ColumnPermission :=
  populate {| cp_Column := None |}.
Global Instance TablePermission_inhabited : Inhabited TablePermission :=
  populate {| tp_Table := None; tp_ColumnPermissions := [] |}.
Global Instance Role_inhabited : Inhabited Role :=
  populate {| role_Name := ""; role_TablePermissions := [] |}.

(** *** Field updates *)

Definition with_col_Name (n : string) (c : Column) : Column :=
  {| col_Name := n; col_Type := col_Type c |}.
Definition with_part_Name (n : string) (p : Partition) : Partition :=
  {| part_Name := n; part_RefreshedTime := part_RefreshedTime p |}.
Definition with_tbl_Name (n : string) (t : Table) : Table :=
  {| tbl_Name := n; tbl_Columns := tbl_Columns t; tbl_Partitions := tbl_Partitions t;
     tbl_Measures := tbl_Measures t; tbl_Hierarchies := tbl_Hierarchies t |}.
Definition with_tbl_Columns (f : list Column -> list Column) (t : Table) : Table :=
  {| tbl_Name := tbl_Name t; tbl_Columns := f (tbl_Columns t);
     tbl_Partitions := tbl_Partitions t;
     tbl_Measures := tbl_Measures t; tbl_Hierarchies := tbl_Hierarchies t |}.
Definition with_tbl_Partitions (f : list Partition -> list Partition) (t : Table) : Table :=
  {| tbl_Name := tbl_Name t; tbl_Columns := tbl_Columns t;
     tbl_Partitions := f (tbl_Partitions t);
     tbl_Measures := tbl_Measures t; tbl_Hierarchies := tbl_Hierarchies t |}.
Definition with_tbl_Measures (f : list string -> list string) (t : Table) : Table :=
  {| tbl_Name := tbl_Name t; tbl_Columns := tbl_Columns t;
     tbl_Partitions := tbl_Partitions t;
     tbl_Measures := f (tbl_Measures t); tbl_Hierarchies := tbl_Hierarchies t |}.
Definition with_tbl_Hierarchies (f : list string -> list string) (t : Table) : Table :=
  {| tbl_Name := tbl_Name t; tbl_Columns := tbl_Columns t;
     tbl_Partitions := tbl_Partitions t;
     tbl_Measures := tbl_Measures t; tbl_Hierarchies := f (tbl_Hierarchies t) |}.
Definition with_rel_Name (n : string) (r : Relationship) : Relationship :=
  {| rel_Name := n; rel_FromColumn := rel_FromColumn r; rel_ToColumn := rel_ToColumn r |}.
Definition with_rel_FromColumn (c : option ColRef) (r : Relationship) : Relationship :=
  {| rel_Name := rel_Name r; rel_FromColumn := c; rel_ToColumn := rel_ToColumn r |}.
Definition with_rel_ToColumn (c : option ColRef) (r : Relationship) : Relationship :=
  {| rel_Name := rel_Name r; rel_FromColumn := rel_FromColumn r; rel_ToColumn := c |}.
Definition with_tp_Table (t : option nat) (p : TablePermission) : TablePermission :=
  {| tp_Table := t; tp_ColumnPermissions := tp_ColumnPermissions p |}.
Definition with_tp_ColumnPermissions
    (f : list ColumnPermission -> list ColumnPermission) (p : TablePermission)
    : TablePermission :=
  {| tp_Table := tp_Table p; tp_ColumnPermissions := f (tp_ColumnPermissions p) |}.
Definition with_role_TablePermissions (f : list nat -> list nat) (r : Role) : Role :=
  {| role_Name := role_Name r; role_TablePermissions := f (role_TablePermissions r) |}.

Definition with_table_heap (f : list Table -> list Table) (m : Model) : Model :=
  {| Name := Name m; table_heap := f (table_heap m); Tables := Tables m;
     rel_heap := rel_heap m; Relationships := Relationships m;
     perm_heap := perm_heap m; Roles := Roles m; Cultures := Cultures m |}.
Definition with_Tables (f : list nat -> list nat) (m : Model) : Model :=
  {| Name := Name m; table_heap := table_heap m; Tables := f (Tables m);
     rel_heap := rel_heap m; Relationships := Relationships m;
     perm_heap := perm_heap m; Roles := Roles m; Cultures := Cultures m |}.
Definition with_rel_heap (f : list Relationship -> list Relationship) (m : Model) : Model :=
  {| Name := Name m; table_heap := table_heap m; Tables := Tables m;
     rel_heap := f (rel_heap m); Relationships := Relationships m;
     perm_heap := perm_heap m; Roles := Roles m; Cultures := Cultures m |}.
Definition with_Relationships (f : list nat -> list nat) (m : Model) : Model :=
  {| Name := Name m; table_heap := table_heap m; Tables := Tables m;
     rel_heap := rel_heap m; Relationships := f (Relationships m);
     perm_heap := perm_heap m; Roles := Roles m; Cultures := Cultures m |}.
Definition with_perm_heap (f : list TablePermission -> list TablePermission) (m : Model)
    : Model :=
  {| Name := Name m; table_heap := table_heap m; Tables := Tables m;
     rel_heap := rel_heap m; Relationships := Relationships m;
     perm_heap := f (perm_heap m); Roles := Roles m; Cultures := Cultures m |}.
Definition with_Roles (f : list Role -> list Role) (m : Model) : Model :=
  {| Name := Name m; table_heap := table_heap m; Tables := Tables m;
     rel_heap := rel_heap m; Relationships := Relationships m;
     perm_heap := perm_heap m; Roles := f (Roles m); Cultures := Cultures m |}.

(** *** References a script can hold to objects that carry a name *)

Inductive Ref : Type :=
| TableRef (t : nat)
| ColumnRef (t slot : nat)
| PartitionRef (t slot : nat)
| MeasureRef (t slot : nat)
| HierarchyRef (t slot : nat)
| RelationshipRef (r : nat).

Definition table (m : Model) (t : nat) : Table := table_heap m !!! t.
Definition relationship (m : Model) (r : nat) : Relationship := rel_heap m !!! r.
Definition permission (m : Model) (p : nat) : TablePermission := perm_heap m !!! p.
Definition column (m : Model) (c : ColRef) : Column := tbl_Columns (table m c.1) !!! c.2.

(** [item.Name] *)
Definition get_Name (m : Model) (item : Ref) : string :=
  match item with
  | TableRef t => tbl_Name (table m t)
  | ColumnRef t slot => col_Name (column m (t, slot))
  | PartitionRef t slot => part_Name (tbl_Partitions (table m t) !!! slot)
  | MeasureRef t slot => tbl_Measures (table m t) !!! slot
  | HierarchyRef t slot => tbl_Hierarchies (table m t) !!! slot
  | RelationshipRef r => rel_Name (relationship m r)
  end.


(** [item.RequestRename(name)]: the object carries the new name at once. *)
Definition RequestRename (item : Ref) (name : string) (m : Model) : Model :=
  match item with
  | TableRef t => with_table_heap (alter (with_tbl_Name name) t) m
  | ColumnRef t slot =>
      with_table_heap
        (alter (with_tbl_Columns (alter (with_col_Name name) slot)) t) m
  | PartitionRef t slot =>
      with_table_heap
        (alter (with_tbl_Partitions (alter (with_part_Name name) slot)) t) m
  | MeasureRef t slot =>
      with_table_heap (alter (with_tbl_Measures (alter (fun _ => name) slot)) t) m
  | HierarchyRef t slot =>
      with_table_heap (alter (with_tbl_Hierarchies (alter (fun _ => name) slot)) t) m
  | RelationshipRef r => with_rel_heap (alter (with_rel_Name name) r) m
  end.

(** [table.Columns.GetEnumerator()] and its siblings: the slots in order. *)
Definition Columns_GetEnumerator (m : Model) (t : nat) : list Ref :=
  ColumnRef t <$> seq 0 (length (tbl_Columns (table m t))).
Definition Partitions_GetEnumerator (m : Model) (t : nat) : list Ref :=
  PartitionRef t <$> seq 0 (length (tbl_Partitions (table m t))).
Definition Measures_GetEnumerator (m : Model) (t : nat) : list Ref :=
  MeasureRef t <$> seq 0 (length (tbl_Measures (table m t))).
Definition Hierarchies_GetEnumerator (m : Model) (t : nat) : list Ref :=
  HierarchyRef t <$> seq 0 (length (tbl_Hierarchies (table m t))).

(** The table of the collection with a name, if there is one. *)
Definition named (m : Model) (name : string) : option nat :=
  List.find (fun t => String.eqb (tbl_Name (table m t)) name) (Tables m).

(** [x.Clone()]: a new object with the same content, in no collection. *)
Definition Table_Clone (t : nat) (m : Model) : nat * Model :=
  (length (table_heap m), with_table_heap (fun h => h ++ [table m t]) m).
Definition Relationship_Clone (r : nat) (m : Model) : nat * Model :=
  (length (rel_heap m), with_rel_heap (fun h => h ++ [relationship m r]) m).
Definition TablePermission_Clone (p : nat) (m : Model) : nat * Model :=
  (length (perm_heap m), with_perm_heap (fun h => h ++ [permission m p]) m).


(** Modelled from the spec: "uniqueness of names ... [is] enforced
    entirely by the native Tabular engine", so [Tables.Add] of a table
    whose name a table of the collection has is refused. *)
Definition Tables_Add (t : nat) : M Model unit :=
  fun m =>
    match named m (tbl_Name (table m t)) with
    | Some _ => (Raise (NativeError "a table of that name exists"), m)
    | None => (Return tt, with_Tables (fun l => l ++ [t]) m)
    end.
Definition Relationships_Add (r : nat) : Model -> Model :=
  with_Relationships (fun l => l ++ [r]).
Definition TablePermissions_Add (role p : nat) : Model -> Model :=
  with_Roles (alter (with_role_TablePermissions (fun l => l ++ [p])) role).

(** [relationship.ToTable] and [relationship.FromTable] are the tables
    of the two columns. *)
Definition ToTable (m : Model) (r : nat) : option nat := fst <$> rel_ToColumn (relationship m r).
Definition FromTable (m : Model) (r : nat) : option nat :=
  fst <$> rel_FromColumn (relationship m r).

Definition set_ToColumn (r : nat) (c : option ColRef) : Model -> Model :=
  with_rel_heap (alter (with_rel_ToColumn c) r).
Definition set_FromColumn (r : nat) (c : option ColRef) : Model -> Model :=
  with_rel_heap (alter (with_rel_FromColumn c) r).

(** A table permission is named after its table, a column permission
    after its column. *)
Definition TablePermission_Name (m : Model) (p : nat) : string :=
  match tp_Table (permission m p) with
  | Some t => tbl_Name (table m t)
  | None => ""
  end.
Definition ColumnPermission_Name (m : Model) (p slot : nat) : string :=
  match cp_Column (tp_ColumnPermissions (permission m p) !!! slot) with
  | Some c => col_Name (column m c)
  | None => ""
  end.

Definition set_Table (p : nat) (t : nat) : Model -> Model :=
  with_perm_heap (alter (with_tp_Table (Some t)) p).
Definition set_Column (p slot : nat) (c : option ColRef) : Model -> Model :=
  with_perm_heap
    (alter (with_tp_ColumnPermissions (alter (fun _ => {| cp_Column := c |}) slot)) p).

End TOM.

(** ** What crosses the boundary between the facade and the server *)

(** A [pandas.DataFrame] of text cells. *)
Record DataFrame : Type := {
  df_columns : list string;
  df_rows : list (list string);
}.

(** [Union[pd.DataFrame, str, int]], the result of a query. *)
Inductive QueryResult : Type :=
| Frame (df : DataFrame)
| Text (s : string)
| Number (n : Z).

(** The result of the native [SaveChanges()]. *)
Module Native.
Record PropertyChange : Type := {
  NewValue : string;
  Object : string;
  OriginalValue : string;
  PropertyName : string;
  PropertyType : string;
}.
Record Impact : Type := {
  PropertyChanges : list PropertyChange;
  AddedObjects : list string;
  AddedSubtreeRoots : list string;
  RemovedObjects : list string;
  RemovedSubtreeRoots : list string;
}.
Record ModelOperationResult : Type := {
  Impact_ : option Impact;
  XmlaResults : list string;
}.
End Native.

(** The commands the facade sends out, in the order they are sent.
    Reads and edits of the metadata are not listed: the store shows
    them. Of the logging only errors and warnings are kept. *)
Inductive Event : Type :=
| Server_Connect (connection_str : string)
| Server_Reconnect
| Database_Refresh
| Model_SaveChanges
| PyRefresh_run (object : string) (default_row_count_check : bool)
| Connection_init (effective_user : option string)
| Connection_query (conn : nat) (query_str : string)
| subprocess_Popen (cmd : string)
| atexit_register (callback : string)
| logger_error (msg : string)
| logger_warning (msg : string).

Global Instance Event_eq_dec : EqDecision Event.
Proof. solve_decision. Defined.

(** How often a command occurs in a trace. *)
Definition occurrences (e : Event) (t : list Event) : nat :=
  length (filter (fun e' => e' = e) t).

Record Database : Type := {
  db_Name : string;
  db_CompatibilityLevel : Z;
  db_CompatibilityMode : Z;
  db_Model : TOM.Model;
}.

(** What the surroundings answer. None of it is decided by the facade. *)
Record Oracle : Type := {
  (** whether the native Model object has a member of that name *)
  Model_has_member : string -> bool;
  (** whether the native collections ([Model.Tables], [table.Columns])
      have a member of that name *)
  Collection_has_member : string -> bool;
  (** what the n-th [SaveChanges()] answers, or raises *)
  save_answer : nat -> outcome Native.ModelOperationResult;
  (** the answer of a connection to a query *)
  query_answer : nat -> string -> QueryResult;
  (** the frame a refresh run returns *)
  refresh_answer : string -> DataFrame;
  (** stdout and stderr of a shell command *)
  subprocess_answer : string -> string * string;
  (** [os.getcwd()] *)
  getcwd : string;
}.

(** The server before the facade is built. *)
Record Server : Type := {
  (** what [Server.Connect] raises on a connection string, if anything *)
  Connect_answer : string -> option exn;
  srv_Name : string;
  srv_ConnectionString : string;
  (** [Server.ConnectionInfo.Catalog] *)
  srv_Catalog : option string;
  (** what [Server.Databases.GetEnumerator()] yields ... *)
  srv_Databases : list Database;
  (** ... and what it raises after the last of them, if anything *)
  srv_Databases_fault : option exn;
  (** what [Connection(self.Server)] raises while the facade is built, if
      anything *)
  srv_Connection_fault : option exn;
  (** what the [Database.Refresh()] of the first reload raises, if
      anything *)
  srv_Refresh_fault : option exn;
  srv_oracle : Oracle;
}.

(** The native objects a built facade holds, and the trace so far. *)
Record World : Type := {
  Server_Name : string;
  Server_Connected : bool;
  Server_ConnectionString : string;
  the_Database : Database;
  oracle : Oracle;
  saves_done : nat;
  connections_made : nat;
  trace : list Event;
}.

Definition Model (w : World) : TOM.Model := db_Model (the_Database w).

Definition with_Model (f : TOM.Model -> TOM.Model) (w : World) : World :=
  {| Server_Name := Server_Name w; Server_Connected := Server_Connected w;
     Server_ConnectionString := Server_ConnectionString w;
     the_Database :=
       {| db_Name := db_Name (the_Database w);
          db_CompatibilityLevel := db_CompatibilityLevel (the_Database w);
          db_CompatibilityMode := db_CompatibilityMode (the_Database w);
          db_Model := f (Model w) |};
     oracle := oracle w; saves_done := saves_done w;
     connections_made := connections_made w; trace := trace w |}.

Definition with_trace (f : list Event -> list Event) (w : World) : World :=
  {| Server_Name := Server_Name w; Server_Connected := Server_Connected w;
     Server_ConnectionString := Server_ConnectionString w;
     the_Database := the_Database w;
     oracle := oracle w; saves_done := saves_done w;
     connections_made := connections_made w; trace := f (trace w) |}.

Definition with_Server_Connected (b : bool) (w : World) : World :=
  {| Server_Name := Server_Name w; Server_Connected := b;
     Server_ConnectionString := Server_ConnectionString w;
     the_Database := the_Database w;
     oracle := oracle w; saves_done := saves_done w;
     connections_made := connections_made w; trace := trace w |}.

Definition with_saves_done (n : nat) (w : World) : World :=
  {| Server_Name := Server_Name w; Server_Connected := Server_Connected w;
     Server_ConnectionString := Server_ConnectionString w;
     the_Database := the_Database w;
     oracle := oracle w; saves_done := n;
     connections_made := connections_made w; trace := trace w |}.

Definition with_connections_made (n : nat) (w : World) : World :=
  {| Server_Name := Server_Name w; Server_Connected := Server_Connected w;
     Server_ConnectionString := Server_ConnectionString w;
     the_Database := the_Database w;
     oracle := oracle w; saves_done := saves_done w;
     connections_made := n; trace := trace w |}.

Definition log (e : Event) : World -> World := with_trace (fun t => t ++ [e]).

(** ** query.py: [Connection]

    Modelled from the spec: query.py is not under src/. "Querying is a
    pass-through to a native ADOMD connection": a [Connection] is built
    from the server and an optional effective user, and [query] hands
    the string to the native connection and returns its answer. *)
Record Connection : Type := {
  conn_id : nat;
  conn_effective_user : option string;
  ConnectionString : string;
}.

Module Connection_.

Definition __init__ (effective_user : option string) : M World Connection :=
  w <- get ;;
  modify (log (Connection_init effective_user)) ;;
  modify (with_connections_made (S (connections_made w))) ;;
  ret {| conn_id := connections_made w;
         conn_effective_user := effective_user;
         ConnectionString := Server_ConnectionString w |}.

Definition query (self : Connection) (query_str : string) : M World QueryResult :=
  modify (log (Connection_query (conn_id self) query_str)) ;;
  gets (fun w => query_answer (oracle w) (conn_id self) query_str).

End Connection_.

(** ** More of Python: builtins over lists *)

Module Builtins.

(** [[y for x in outer for y in inner x]]: the loops append one element
    at a time. *)
Definition nested_for {A B} (outer : list A) (inner : A -> list B) : list B :=
  foldl (fun acc x => foldl (fun acc y => acc ++ [y]) acc (inner x)) [] outer.

(** [max(xs)] on a list *)
Definition max {S} (xs : list Z) : M S Z :=
  match xs with
  | [] => raise (ValueError "max() arg is an empty sequence")
  | x :: rest => ret (foldl Z.max x rest)
  end.

(** [xs[0]] *)
Definition first {S A} (xs : list A) : M S A :=
  match xs with
  | [] => raise IndexError
  | x :: _ => ret x
  end.

(** [x in xs] for strings *)
Definition member (x : string) (xs : list string) : bool :=
  existsb (String.eqb x) xs.

(** [str(x)] for an optional string *)
Definition str (x : option string) : string :=
  match x with
  | Some s => s
  | None => "None"
  end.

End Builtins.

(** ** pandas: what [PyTables.Last_Refresh] asks of a frame *)

Module Pandas.

(** The largest value among the rows of one key. *)
Definition group_max (key : string) (rows : list (string * Z)) : Z :=
  match (filter (fun row => row.1 = key) rows).*2 with
  | [] => 0%Z
  | v :: vs => foldl Z.max v vs
  end.

(** [df.groupby(by=[key]).max().reset_index(drop=False)]: one row for
    each key that occurs, keys in ascending order, each with the
    largest value of its rows. *)
Definition groupby_max (rows : list (string * Z)) : list (string * Z) :=
  (fun key => (key, group_max key rows)) <$>
    merge_sort String.le (remove_dups rows.*1).

End Pandas.

(** ** table.py *)

(** Modelled from the spec: partition.py, column.py and measure.py are
    not under src/. Each wrapper is "a pass-through wrapper holding a
    reference to the corresponding native object"; [PyTable.__init__]
    builds it from the native object and the table wrapper, which is
    kept here as the identity of that table. *)
Record PyChild : Type := {
  child_object : TOM.Ref;
  child_Table : nat;
}.

Module PyPartition.

(** Modelled from the spec: [PyPartition.Last_Refresh] (partition.py is
    not under src/) gives the refresh time of the native partition,
    "the RefreshedTime property". *)
Definition Last_Refresh (self : PyChild) : M World Z :=
  match child_object self with
  | TOM.PartitionRef t slot =>
      gets (fun w =>
        TOM.part_RefreshedTime (TOM.tbl_Partitions (TOM.table (Model w) t) !!! slot))
  | _ => raise (AttributeError "RefreshedTime")
  end.

End PyPartition.

Module PyTable.

Record t : Type := {
  _object : nat;
  Partitions : list PyChild;
  Columns : list PyChild;
  Measures : list PyChild;
}.

(** [PyTable(object, model)] *)
Definition __init__ (m : TOM.Model) (object : nat) : t :=
  let wrap := fun child => {| child_object := child; child_Table := object |} in
  {| _object := object;
     Partitions := wrap <$> TOM.Partitions_GetEnumerator m object;
     Columns := wrap <$> TOM.Columns_GetEnumerator m object;
     Measures := wrap <$> TOM.Measures_GetEnumerator m object |}.

Definition Last_Refresh (self : t) : M World Z :=
  partition_refreshes <- comprehension (Partitions self) PyPartition.Last_Refresh ;;
  Builtins.max partition_refreshes.

End PyTable.

Module PyTables.

(** The frame [Last_Refresh] returns: by partition, or grouped to the
    grain of the table. *)
Inductive frame : Type :=
| by_partition (rows : list (string * string * Z))
| by_table (rows : list (string * Z)).

Definition Last_Refresh (self : list PyTable.t) (group_partition : bool)
    : M World frame :=
  let partitions := Builtins.nested_for self PyTable.Partitions in
  Tables <- comprehension partitions (fun partition =>
              gets (fun w => TOM.tbl_Name (TOM.table (Model w) (child_Table partition)))) ;;
  Partitions <- comprehension partitions (fun partition =>
              gets (fun w => TOM.get_Name (Model w) (child_object partition))) ;;
  RefreshedTime <- comprehension partitions PyPartition.Last_Refresh ;;
  let df := zip (zip Tables Partitions) RefreshedTime in
  if group_partition
  then ret (by_table (Pandas.groupby_max ((fun row => (row.1.1, row.2)) <$> df)))
  else ret (by_partition df).

End PyTables.

(** ** logic_utils.py *)

Module LogicUtils.

(** Modelled from the spec: [remove_suffix] of logic_utils.py, which is
    not under src/. The scripts use it for "stripping the '_backup'
    suffix": the string without the suffix when it ends with it, the
    string itself otherwise. *)
Definition remove_suffix (input_string suffix : string) : string :=
  match suffix with
  | EmptyString => input_string
  | _ => default input_string (Str.strip_suffix input_string suffix)
  end.

End LogicUtils.

(** ** More of pandas: what [is_process] asks of a frame *)

Module Frames.

(** [df[name]]: the cells of a column, [KeyError] without it. *)
Definition getitem {S} (df : DataFrame) (name : string) : M S (list string) :=
  match list_find (fun column => column = name) (df_columns df) with
  | Some (i, _) => ret ((fun row => row !!! i) <$> df_rows df)
  | None => raise (KeyError name)
  end.

(** [df[mask]]: the rows where the mask holds. *)
Definition select (df : DataFrame) (mask : list bool) : DataFrame :=
  {| df_columns := df_columns df;
     df_rows := (filter (fun row => row.2 = true) (zip (df_rows df) mask)).*1 |}.

(** [len(df)] *)
Definition len (df : DataFrame) : nat := length (df_rows df).

End Frames.

(** ** pytabular.py: the [Tabular] facade *)

Module Tabular.

(** The attributes [__init__] and [reload_model_info] give an instance.
    [Server], [Database] and [Model] refer to native objects, which are
    kept in the [World]. *)
Record t : Type := {
  Catalog : option string;
  CompatibilityLevel : Z;
  CompatibilityMode : Z;
  Adomd : Connection;
  Effective_Users : gmap string Connection;
  Tables : list PyTable.t;
  Relationships : list nat;
  Partitions : list PyChild;
  Columns : list PyChild;
  Measures : list PyChild;
  Cultures : list nat;
}.

Record State : Type := {
  self : t;
  world : World;
}.

Definition with_world (f : World -> World) (s : State) : State :=
  {| self := self s; world := f (world s) |}.
Definition with_self (f : t -> t) (s : State) : State :=
  {| self := f (self s); world := world s |}.

Definition with_Effective_Users
    (f : gmap string Connection -> gmap string Connection) (o : t) : t :=
  {| Catalog := Catalog o; CompatibilityLevel := CompatibilityLevel o;
     CompatibilityMode := CompatibilityMode o; Adomd := Adomd o;
     Effective_Users := f (Effective_Users o);
     Tables := Tables o; Relationships := Relationships o;
     Partitions := Partitions o; Columns := Columns o; Measures := Measures o;
     Cultures := Cultures o |}.
Definition with_Tables (v : list PyTable.t) (o : t) : t :=
  {| Catalog := Catalog o; CompatibilityLevel := CompatibilityLevel o;
     CompatibilityMode := CompatibilityMode o; Adomd := Adomd o;
     Effective_Users := Effective_Users o;
     Tables := v; Relationships := Relationships o;
     Partitions := Partitions o; Columns := Columns o; Measures := Measures o;
     Cultures := Cultures o |}.
Definition with_Relationships (v : list nat) (o : t) : t :=
  {| Catalog := Catalog o; CompatibilityLevel := CompatibilityLevel o;
     CompatibilityMode := CompatibilityMode o; Adomd := Adomd o;
     Effective_Users := Effective_Users o;
     Tables := Tables o; Relationships := v;
     Partitions := Partitions o; Columns := Columns o; Measures := Measures o;
     Cultures := Cultures o |}.
Definition with_Partitions (v : list PyChild) (o : t) : t :=
  {| Catalog := Catalog o; CompatibilityLevel := CompatibilityLevel o;
     CompatibilityMode := CompatibilityMode o; Adomd := Adomd o;
     Effective_Users := Effective_Users o;
     Tables := Tables o; Relationships := Relationships o;
     Partitions := v; Columns := Columns o; Measures := Measures o;
     Cultures := Cultures o |}.
Definition with_Columns (v : list PyChild) (o : t) : t :=
  {| Catalog := Catalog o; CompatibilityLevel := CompatibilityLevel o;
     CompatibilityMode := CompatibilityMode o; Adomd := Adomd o;
     Effective_Users := Effective_Users o;
     Tables := Tables o; Relationships := Relationships o;
     Partitions := Partitions o; Columns := v; Measures := Measures o;
     Cultures := Cultures o |}.
Definition with_Measures (v : list PyChild) (o : t) : t :=
  {| Catalog := Catalog o; CompatibilityLevel := CompatibilityLevel o;
     CompatibilityMode := CompatibilityMode o; Adomd := Adomd o;
     Effective_Users := Effective_Users o;
     Tables := Tables o; Relationships := Relationships o;
     Partitions := Partitions o; Columns := Columns o; Measures := v;
     Cultures := Cultures o |}.
Definition with_Cultures (v : list nat) (o : t) : t :=
  {| Catalog := Catalog o; CompatibilityLevel := CompatibilityLevel o;
     CompatibilityMode := CompatibilityMode o; Adomd := Adomd o;
     Effective_Users := Effective_Users o;
     Tables := Tables o; Relationships := Relationships o;
     Partitions := Partitions o; Columns := Columns o; Measures := Measures o;
     Cultures := v |}.

(** *** Reaching the native side *)

(** A command of the native side, run from the facade. *)
Definition native {A} (c : M World A) : M State A :=
  fun s => let '(r, w) := c (world s) in (r, {| self := self s; world := w |}).

(** A read of the metadata through [self.Model]. *)
Definition model {A} (f : TOM.Model -> A) : M State A :=
  gets (fun s => f (Model (world s))).

(** Statements that touch nothing but the metadata behind [self.Model]
    run on the metadata. *)
Definition metadata {A} (c : M TOM.Model A) : M State A :=
  fun s =>
    let '(r, m) := c (Model (world s)) in
    (r, with_world (with_Model (fun _ => m)) s).

(** A native call that makes an object, such as [Clone()]. *)
Definition create (f : TOM.Model -> nat * TOM.Model) : M TOM.Model nat :=
  fun m => (Return (f m).1, (f m).2).

Definition emit (e : Event) : M State unit := modify (with_world (log e)).

(** [o.attr] where [o] may be [None]. *)
Definition attr_of {S A} (o : option A) (attr : string) : M S A :=
  match o with
  | Some x => ret x
  | None => raise (AttributeError attr)
  end.

(** *** Attribute lookup on the instance

    Python looks a name up on the instance, then on the class, case
    sensitively. *)

Definition instance_attributes : list string :=
  ["Server"; "Catalog"; "Database"; "CompatibilityLevel"; "CompatibilityMode";
   "Model"; "Adomd"; "Effective_Users"; "PyRefresh";
   "Tables"; "Relationships"; "Partitions"; "Columns"; "Measures"; "Cultures"].

Definition methods : list string :=
  ["__init__"; "reload_model_info"; "is_process"; "disconnect"; "reconnect";
   "refresh"; "save_changes"; "backup_table"; "revert_table"; "query";
   "analyze_bpa"; "create_table"].

(** Modelled from the spec: [PyObject] of object.py, which is not under
    src/, the base class of [Tabular]. It is "a pass-through wrapper
    holding a reference to the corresponding native object plus a display
    helper": it adds [_object] and [_display], and a name found neither
    on the instance nor on the class is looked up on the native object,
    here the native Model. *)
Definition PyObject_attributes : list string := ["_object"; "_display"].

(** What a lookup can give, as far as the code goes on to use it. *)
Inductive attribute : Type :=
| the_Effective_Users            (* the dict made in [__init__] *)
| the_query_method               (* the bound method [query] *)
| own (name : string)            (* another attribute of the facade *)
| native_member (name : string). (* a member of the native Model *)

Definition getattr (name : string) : M State attribute :=
  if String.eqb name "Effective_Users" then ret the_Effective_Users
  else if String.eqb name "query" then ret the_query_method
  else if Builtins.member name (instance_attributes ++ methods ++ PyObject_attributes)
  then ret (own name)
  else
    has <- gets (fun s => Model_has_member (oracle (world s)) name) ;;
    if has : bool then ret (native_member name) else raise (AttributeError name).

(** [value[key]] *)
Definition getitem (value : attribute) (key : string) : M State Connection :=
  match value with
  | the_Effective_Users =>
      users <- gets (fun s => Effective_Users (self s)) ;;
      match users !! key with
      | Some conn => ret conn
      | None => raise (KeyError key)
      end
  | _ => raise (TypeError "object is not subscriptable")
  end.

(** [value[key] = conn] *)
Definition setitem (value : attribute) (key : string) (conn : Connection)
    : M State unit :=
  match value with
  | the_Effective_Users => modify (with_self (with_Effective_Users (insert key conn)))
  | _ => raise (TypeError "object does not support item assignment")
  end.


(** [collection.name] on a native collection, for a name the store does
    not model; [has] is whether the native collections have such a
    member, a fact of the native side. *)
Definition Collection_getattr {S} (has : bool) (name : string) : M S attribute :=
  if has then ret (native_member name) else raise (AttributeError name).

(** [value(name)] for what such a lookup gives: what a member the store
    does not model would answer is unknown, and the call is marked by a
    [NativeError] of its name. *)
Definition call_find {S A} (value : attribute) (name : string) : M S A :=
  match value with
  | native_member member => raise (NativeError member)
  | _ => raise (TypeError "object is not callable")
  end.

(** *** The methods *)

(** [self.Database.Refresh()] on a facade that is built: the call is
    recorded. A refresh that fails while the facade is being built is a
    fault of the [Server], see [__init__]. *)
Definition Database_Refresh_ : M State unit := emit Database_Refresh.

Definition reload_model_info : M State bool :=
  Database_Refresh_ ;;
  tables <- model (fun m => PyTable.__init__ m <$> TOM.Tables m) ;;
  modify (with_self (with_Tables tables)) ;;
  relationships <- model TOM.Relationships ;;
  modify (with_self (with_Relationships relationships)) ;;
  modify (with_self (fun o =>
    with_Partitions (Builtins.nested_for (Tables o) PyTable.Partitions) o)) ;;
  modify (with_self (fun o =>
    with_Columns (Builtins.nested_for (Tables o) PyTable.Columns) o)) ;;
  modify (with_self (fun o =>
    with_Measures (Builtins.nested_for (Tables o) PyTable.Measures) o)) ;;
  cultures <- model (fun m => seq 0 (length (TOM.Cultures m))) ;;
  modify (with_self (with_Cultures cultures)) ;;
  ret true.

Definition reconnect : M State unit :=
  emit Server_Reconnect ;;
  modify (with_world (with_Server_Connected true)).

(** Modelled from the spec: [PyRefresh] of refresh.py, which is not
    under src/. "[Tabular.refresh] forwards to native refresh": a run is
    one command for the named object, and answers with a frame. *)
Definition refresh (object : string) (default_row_count_check : bool)
    : M State DataFrame :=
  emit (PyRefresh_run object default_row_count_check) ;;
  gets (fun s => refresh_answer (oracle (world s)) object).

(** The two named tuples of [save_changes]. *)
Record property_change : Type := {
  new_value : string;
  object : string;
  original_value : string;
  property_name : string;
  property_type : string;
}.

Record changes : Type := {
  property_changes_ : list property_change;
  added_objects : list string;
  added_subtree_roots : list string;
  removed_objects : list string;
  removed_subtree_Roots : list string;
  xmla_results : list string;
}.

(** [self.Model.SaveChanges()]: the command is sent, and the server
    answers or raises. *)
Definition Model_SaveChanges_ : M State Native.ModelOperationResult :=
  emit Model_SaveChanges ;;
  n <- gets (fun s => saves_done (world s)) ;;
  modify (with_world (with_saves_done (S n))) ;;
  answer <- gets (fun s => save_answer (oracle (world s)) n) ;;
  match answer with
  | Return model_save_results => ret model_save_results
  | Raise e => raise e
  end.

Definition property_changes (property_changes_var : list Native.PropertyChange)
    : list property_change :=
  (fun change =>
     {| new_value := Native.NewValue change;
        object := Native.Object change;
        original_value := Native.OriginalValue change;
        property_name := Native.PropertyName change;
        property_type := Native.PropertyType change |}) <$> property_changes_var.

Definition save_changes : M State (option changes) :=
  connected <- gets (fun s => Server_Connected (world s)) ;;
  (if negb connected then reconnect else ret tt) ;;
  model_save_results <- Model_SaveChanges_ ;;
  match Native.Impact_ model_save_results with
  | None =>
      name <- gets (fun s => Server_Name (world s)) ;;
      emit (logger_warning ("No changes detected on save for " +:+ name)) ;;
      ret None
  | Some impact =>
      let property_changes_var := Native.PropertyChanges impact in
      let added_objects := Native.AddedObjects impact in
      let added_subtree_roots := Native.AddedSubtreeRoots impact in
      let removed_objects := Native.RemovedObjects impact in
      let removed_subtree_roots := Native.RemovedSubtreeRoots impact in
      let xmla_results := Native.XmlaResults model_save_results in
      reload_model_info ;;
      ret (Some {| property_changes_ := property_changes property_changes_var;
                   added_objects := added_objects;
                   added_subtree_roots := added_subtree_roots;
                   removed_objects := removed_objects;
                   removed_subtree_Roots := removed_subtree_roots;
                   xmla_results := xmla_results |})
  end.

Definition query (query_str : string) (effective_user : option string)
    : M State QueryResult :=
  match effective_user with
  | None =>
      adomd <- gets (fun s => Adomd (self s)) ;;
      native (Connection_.query adomd query_str)
  | Some effective_user =>
      conn <- try_except
                (effective_users <- getattr "effective_users" ;;
                 getitem effective_users effective_user)
                (fun _ =>
                   conn <- native (Connection_.__init__ (Some effective_user)) ;;
                   effective_Users <- getattr "effective_Users" ;;
                   setitem effective_Users effective_user conn ;;
                   ret conn) ;;
      native (Connection_.query conn query_str)
  end.

(** [value(query_str)] *)
Definition call (value : attribute) (query_str : string) : M State QueryResult :=
  match value with
  | the_query_method => query query_str None
  | native_member name => raise (NativeError name)
  | _ => raise (TypeError "object is not callable")
  end.

Definition is_process : M State bool :=
  Query <- getattr "Query" ;;
  result <- call Query "select * from $SYSTEM.DISCOVER_JOBS" ;;
  match result with
  | Frame _jobs_df =>
      JOB_DESCRIPTION <- Frames.getitem _jobs_df "JOB_DESCRIPTION" ;;
      let mask := (fun cell => String.eqb cell "Process") <$> JOB_DESCRIPTION in
      ret (Nat.ltb 0 (Frames.len (Frames.select _jobs_df mask)))
  | _ => raise (TypeError "object is not subscriptable")
  end.

(** What [analyze_bpa] returns: the text of stderr, or the violations. *)
Inductive bpa : Type :=
| error_text (error : string)
| violations (lines : list string).

Definition analyze_bpa (tabular_editor_exe best_practice_analyzer : string)
    : M State bpa :=
  cwd <- gets (fun s => getcwd (oracle (world s))) ;;
  let bim_file_location := cwd +:+ "\Model.bim" in
  emit (atexit_register ("remove_file " +:+ bim_file_location)) ;;
  connection_string <- gets (fun s => ConnectionString (Adomd (self s))) ;;
  database <- gets (fun s => db_Name (the_Database (world s))) ;;
  let cmd :=
    tabular_editor_exe +:+ " " +:+ Str.quote +:+ "Provider=MSOLAP;" +:+
    connection_string +:+ Str.quote +:+ " " +:+ database +:+ " -B " +:+
    Str.quote +:+ bim_file_location +:+ Str.quote +:+ " -A " +:+
    best_practice_analyzer +:+ " -V/?" in
  emit (subprocess_Popen cmd) ;;
  communicate <- gets (fun s => subprocess_answer (oracle (world s)) cmd) ;;
  let '(raw_output, error) := communicate in
  if Nat.ltb 0 (String.length error)
  then ret (error_text error)
  else ret (violations
              (filter (fun output => Str.contains "violates rule" output = true)
                      (Str.split Str.newline raw_output))).

(** *** [backup_table]

    The script calls the native side by its own names ([Clone],
    [RequestRename], [GetEnumerator], [Add], [SaveChanges]), but looks
    tables and columns up with [find]: a lookup of that name on a native
    collection goes through [Collection_getattr], as the lookups of
    [Query] and [save_changes] on other objects do. The statements on the
    metadata are given [has_find], whether the collections have such a
    member. *)

(** The inner function [rename] of [backup_table]. *)
Definition rename (items : list TOM.Ref) : M TOM.Model unit :=
  for_each items (fun item =>
    name <- gets (fun m => TOM.get_Name m item) ;;
    modify (TOM.RequestRename item (name +:+ "_backup"))).

(** [relationship.ToTable.Name] and its siblings. *)
Definition ToTable_Name (relationship : nat) : M TOM.Model string :=
  ToTable <- gets (fun m => TOM.ToTable m relationship) ;;
  t <- attr_of ToTable "Name" ;;
  gets (fun m => TOM.tbl_Name (TOM.table m t)).

Definition FromTable_Name (relationship : nat) : M TOM.Model string :=
  FromTable <- gets (fun m => TOM.FromTable m relationship) ;;
  t <- attr_of FromTable "Name" ;;
  gets (fun m => TOM.tbl_Name (TOM.table m t)).

Definition ToColumn_Name (relationship : nat) : M TOM.Model string :=
  ToColumn <- gets (fun m => TOM.rel_ToColumn (TOM.relationship m relationship)) ;;
  c <- attr_of ToColumn "Name" ;;
  gets (fun m => TOM.col_Name (TOM.column m c)).

Definition FromColumn_Name (relationship : nat) : M TOM.Model string :=
  FromColumn <- gets (fun m => TOM.rel_FromColumn (TOM.relationship m relationship)) ;;
  c <- attr_of FromColumn "Name" ;;
  gets (fun m => TOM.col_Name (TOM.column m c)).


(** [remove_suffix(table.Name, "_backup")] *)
Definition unsuffixed_Name (table : nat) : M TOM.Model string :=
  name <- gets (fun m => TOM.tbl_Name (TOM.table m table)) ;;
  ret (LogicUtils.remove_suffix name "_backup").

(** The test of the comprehension that finds the relationships of the
    original of the clone [table]:
    [relationship.ToTable.Name == remove_suffix(table.Name, "_backup")
     or relationship.FromTable.Name == remove_suffix(table.Name, "_backup")]. *)
Definition is_of_original (table relationship : nat) : M TOM.Model bool :=
  to_name <- ToTable_Name relationship ;;
  original <- unsuffixed_Name table ;;
  if String.eqb to_name original then ret true
  else
    from_name <- FromTable_Name relationship ;;
    original <- unsuffixed_Name table ;;
    ret (String.eqb from_name original).

(** The body of the loop that switches a cloned relationship to the
    clone [table] and its column, and adds it to the model. *)
Definition switch_to_clone (has_find : bool) (table relationship : nat)
    : M TOM.Model unit :=
  to_name <- ToTable_Name relationship ;;
  original <- unsuffixed_Name table ;;
  (if String.eqb to_name original
   then
     find <- Collection_getattr has_find "find" ;;
     column_Name <- ToColumn_Name relationship ;;
     target <- call_find find (column_Name +:+ "_backup") ;;
     modify (TOM.set_ToColumn relationship target)
   else
     from_name <- FromTable_Name relationship ;;
     original <- unsuffixed_Name table ;;
     if String.eqb from_name original
     then
       find <- Collection_getattr has_find "find" ;;
       column_Name <- FromColumn_Name relationship ;;
       target <- call_find find (column_Name +:+ "_backup") ;;
       modify (TOM.set_FromColumn relationship target)
     else ret tt) ;;
  modify (TOM.Relationships_Add relationship).

(** [[role for role in Roles for tablepermission in role.TablePermissions
      if tablepermission.Name == table_str]]: a role is listed once for
    each of its permissions on the table. *)
Definition roles_of (m : TOM.Model) (table_str : string) : list nat :=
  Builtins.nested_for (seq 0 (length (TOM.Roles m))) (fun role =>
    (fun _ => role) <$>
      filter (fun tablepermission => TOM.TablePermission_Name m tablepermission = table_str)
             (TOM.role_TablePermissions (TOM.Roles m !!! role))).

(** The body of the loop over the column permissions of a cloned table
    permission: each is switched to the column of the clone [table] with
    the suffixed name. *)
Definition switch_column (has_find : bool) (table tablepermission column : nat)
    : M TOM.Model unit :=
  find <- Collection_getattr has_find "find" ;;
  table_Name <- gets (fun m => TOM.tbl_Name (TOM.table m table)) ;;
  found <- call_find (A := option nat) find table_Name ;;
  _ <- attr_of found "Columns" ;;
  find <- Collection_getattr has_find "find" ;;
  column_Name <- gets (fun m => TOM.ColumnPermission_Name m tablepermission column) ;;
  target <- call_find find (column_Name +:+ "_backup") ;;
  modify (TOM.set_Column tablepermission column target).

(** The body of the loop over the cloned table permissions of a role:
    the permission and its column permissions are switched to the clone
    [table], and the permission is added to the role. *)
Definition switch_permission (has_find : bool) (table role tablepermission : nat)
    : M TOM.Model unit :=
  modify (TOM.set_Table tablepermission table) ;;
  columns <- gets (fun m =>
    seq 0 (length (TOM.tp_ColumnPermissions (TOM.permission m tablepermission)))) ;;
  for_each columns (switch_column has_find table tablepermission) ;;
  modify (TOM.TablePermissions_Add role tablepermission).

(** The body of the loop over the roles: the permissions of the role on
    the table are cloned and switched to the clone [table]. *)
Definition clone_permissions (has_find : bool) (table_str : string) (table role : nat)
    : M TOM.Model unit :=
  enumerator <- gets (fun m => TOM.role_TablePermissions (TOM.Roles m !!! role)) ;;
  tablepermissions <-
    comprehension_if enumerator
      (fun p => gets (fun m => String.eqb (TOM.TablePermission_Name m p) table_str))
      (fun p => create (TOM.TablePermission_Clone p)) ;;
  for_each tablepermissions (switch_permission has_find table role).

(** The inner function [clone_role_permissions] of [backup_table];
    [table] is the clone, a variable of the enclosing call. *)
Definition clone_role_permissions (has_find : bool) (table_str : string) (table : nat)
    : M TOM.Model bool :=
  roles <- gets (fun m => roles_of m table_str) ;;
  for_each roles (clone_permissions has_find table_str table) ;;
  ret true.

Definition backup_table (table_str : string) : M State bool :=
  has_find <- gets (fun s => Collection_has_member (oracle (world s)) "find") ;;
  table <- metadata (
    find <- Collection_getattr has_find "find" ;;
    found <- call_find (A := option nat) find table_str ;;
    found <- attr_of found "Clone" ;;
    table <- create (TOM.Table_Clone found) ;;
    items <- gets (fun m => TOM.Columns_GetEnumerator m table) ;;
    rename items ;;
    items <- gets (fun m => TOM.Partitions_GetEnumerator m table) ;;
    rename items ;;
    items <- gets (fun m => TOM.Measures_GetEnumerator m table) ;;
    rename items ;;
    items <- gets (fun m => TOM.Hierarchies_GetEnumerator m table) ;;
    rename items ;;
    name <- gets (fun m => TOM.tbl_Name (TOM.table m table)) ;;
    modify (TOM.RequestRename (TOM.TableRef table) (name +:+ "_backup")) ;;
    TOM.Tables_Add table ;;
    enumerator <- gets TOM.Relationships ;;
    relationships <-
      comprehension_if enumerator (is_of_original table)
        (fun relationship => create (TOM.Relationship_Clone relationship)) ;;
    rename (TOM.RelationshipRef <$> relationships) ;;
    for_each relationships (switch_to_clone has_find table) ;;
    clone_role_permissions has_find table_str table ;;
    ret table) ;;
  reload_model_info ;;
  name <- model (fun m => TOM.tbl_Name (TOM.table m table)) ;;
  refresh name false ;;
  save_changes ;;
  ret true.

(** *** [revert_table] *)







(** *** [__init__] *)

(** [[database for database in self.Server.Databases.GetEnumerator()
      if database.Name == self.Catalog or self.Catalog is None][0]] *)
Definition first_Database (srv : Server) : M (list Event) Database :=
  matching <-
    comprehension_if (srv_Databases srv)
      (fun database =>
         ret (match srv_Catalog srv with
              | Some catalog => String.eqb (db_Name database) catalog
              | None => true
              end))
      ret ;;
  match srv_Databases_fault srv with
  | Some e => raise e
  | None => Builtins.first matching
  end.

(** Up to the choice of the database. *)
Definition connect (connection_str : string) (srv : Server) : M (list Event) Database :=
  modify (fun t => t ++ [Server_Connect connection_str]) ;;
  match Connect_answer srv connection_str with
  | Some e => raise e
  | None => ret tt
  end ;;
  try_except (first_Database srv)
    (fun _ =>
       let err_msg := "Unable to find Database... " +:+ Builtins.str (srv_Catalog srv) in
       modify (fun t => t ++ [logger_error err_msg]) ;;
       raise (Exception_ err_msg)).

(** [Tabular(connection_str)] against a server: the instance and the
    native objects it holds, or the exception, and the trace. The rows
    of the display table, which only read, are left out. After the
    database is chosen the native side is called twice more, for the
    connection and for the [Database.Refresh()] of the reload, and
    either call may raise. *)
Definition __init__ (connection_str : string) (srv : Server)
    : outcome State * list Event :=
  match connect connection_str srv [] with
  | (Raise e, t) => (Raise e, t)
  | (Return Database, t) =>
      let w := {| Server_Name := srv_Name srv; Server_Connected := true;
                  Server_ConnectionString := srv_ConnectionString srv;
                  the_Database := Database; oracle := srv_oracle srv;
                  saves_done := 0; connections_made := 0; trace := t |} in
      let build :=
        adomd <- match srv_Connection_fault srv with
                 | Some e => emit (Connection_init None) ;; raise e
                 | None => native (Connection_.__init__ None)
                 end ;;
        modify (with_self (fun _ =>
          {| Catalog := srv_Catalog srv;
             CompatibilityLevel := db_CompatibilityLevel Database;
             CompatibilityMode := db_CompatibilityMode Database;
             Adomd := adomd; Effective_Users := ∅;
             Tables := []; Relationships := []; Partitions := [];
             Columns := []; Measures := []; Cultures := [] |})) ;;
        match srv_Refresh_fault srv with
        | Some e => Database_Refresh_ ;; raise e
        | None => reload_model_info
        end ;;
        emit (atexit_register "disconnect") in
      let blank :=
        {| Catalog := None; CompatibilityLevel := 0; CompatibilityMode := 0;
           Adomd := {| conn_id := 0; conn_effective_user := None;
                       ConnectionString := "" |};
           Effective_Users := ∅;
           Tables := []; Relationships := []; Partitions := [];
           Columns := []; Measures := []; Cultures := [] |} in
      match build {| self := blank; world := w |} with
      | (Return _, s) => (Return s, trace (world s))
      | (Raise e, s) => (Raise e, trace (world s))
      end
  end.

End Tabular.

(** ** More of [str]: what [Query_All] uses *)

Module StrMore.

(** [s.replace(old, new)] for a one-character [old]: every occurrence
    is replaced. *)
Fixpoint replace (old : ascii) (new s : string) : string :=
  match s with
  | EmptyString => EmptyString
  | String c rest =>
      if Ascii.eqb c old then new +:+ replace old new rest
      else String c (replace old new rest)
  end.

(** [s[:-n]] for a positive [n]: the string without its last [n]
    characters, the empty string when it has fewer. *)
Definition until_last (n : nat) (s : string) : string :=
  String.substring 0 (String.length s - n) s.

End StrMore.

(** ** table.py: the methods that go back to the facade

    A [PyTable] keeps the [Tabular] instance it was built for as
    [self.Model], and the methods below look a name up on it. *)

(** [value(...)] for what such a lookup gives. *)
Definition call_member {A} (value : Tabular.attribute) : M Tabular.State A :=
  match value with
  | Tabular.native_member name => raise (NativeError name)
  | _ => raise (TypeError "object is not callable")
  end.

Module PyTable_.

(** [self.Model.Refresh(self, *args, **kwargs)] *)
Definition Refresh (self : PyTable.t) : M Tabular.State DataFrame :=
  Refresh <- Tabular.getattr "Refresh" ;;
  call_member Refresh.

End PyTable_.

Module PyTables_.

(** [model = self._objects[0].Model; model.Refresh(self, *args, **kwargs)] *)
Definition Refresh (self : list PyTable.t) : M Tabular.State DataFrame :=
  Builtins.first self ;;
  Refresh <- Tabular.getattr "Refresh" ;;
  call_member Refresh.

(** A loop that adds to a variable: [for x in xs: acc = body acc x]. *)
Fixpoint accumulate {S A B} (xs : list A) (acc : B) (body : B -> A -> M S B) : M S B :=
  match xs with
  | [] => ret acc
  | x :: rest => acc <- body acc x ;; accumulate rest acc body
  end.

(** The f-string of the loop of [Query_All]:
    [ROW("Table","{table_name}","{query_function}",
         {query_function.replace('_',dax_table_identifier)}),\n] *)
Definition ROW (table_name query_function : string) : string :=
  let dax_table_identifier := "'" +:+ table_name +:+ "'" in
  "ROW(" +:+ Str.quote +:+ "Table" +:+ Str.quote +:+ "," +:+
  Str.quote +:+ table_name +:+ Str.quote +:+ "," +:+
  Str.quote +:+ query_function +:+ Str.quote +:+ "," +:+
  StrMore.replace "_" dax_table_identifier query_function +:+ ")," +:+
  String Str.newline EmptyString.

(** The query [Query_All] builds, up to [query_str = f"{query_str[:-2]})"]. *)
Definition query_str_of (self : list PyTable.t) (query_function : string)
    : M Tabular.State string :=
  query_str <-
    accumulate self ("EVALUATE UNION(" +:+ String Str.newline EmptyString)
      (fun query_str table =>
         table_name <- Tabular.model (fun m =>
           TOM.tbl_Name (TOM.table m (PyTable._object table))) ;;
         ret (query_str +:+ ROW table_name query_function)) ;;
  ret (StrMore.until_last 2 query_str +:+ ")").

(** [self[0].Model.Query(query_str)] ends the method. *)
Definition Query_All (self : list PyTable.t) (query_function : string)
    : M Tabular.State QueryResult :=
  query_str <- query_str_of self query_function ;;
  Builtins.first self ;;
  Query <- Tabular.getattr "Query" ;;
  Tabular.call Query query_str.

End PyTables_.

(** ** A small model to run the code on *)

Module Example.

Definition column (name : string) : TOM.Column :=
  {| TOM.col_Name := name; TOM.col_Type := TOM.Data |}.
Definition row_number : TOM.Column :=
  {| TOM.col_Name := "RowNumber"; TOM.col_Type := TOM.RowNumber |}.
Definition partition (name : string) (refreshed : Z) : TOM.Partition :=
  {| TOM.part_Name := name; TOM.part_RefreshedTime := refreshed |}.

Definition Sales : TOM.Table :=
  {| TOM.tbl_Name := "Sales";
     TOM.tbl_Columns := [row_number; column "Id"; column "Amount"];
     TOM.tbl_Partitions := [partition "p1" 5; partition "p2" 9];
     TOM.tbl_Measures := ["Total"];
     TOM.tbl_Hierarchies := ["Calendar"] |}.

Definition Customer : TOM.Table :=
  {| TOM.tbl_Name := "Customer";
     TOM.tbl_Columns := [row_number; column "Id"];
     TOM.tbl_Partitions := [partition "c1" 3];
     TOM.tbl_Measures := [];
     TOM.tbl_Hierarchies := [] |}.

(** A table that has no partition yet. *)
Definition Draft : TOM.Table :=
  {| TOM.tbl_Name := "Draft";
     TOM.tbl_Columns := [column "Id"];
     TOM.tbl_Partitions := [];
     TOM.tbl_Measures := [];
     TOM.tbl_Hierarchies := [] |}.

(** Sales and Customer, a relationship from Sales[Id] to Customer[Id],
    and a role with a permission on Sales and its column Amount. *)
Definition model : TOM.Model :=
  {| TOM.Name := "Model";
     TOM.table_heap := [Sales; Customer];
     TOM.Tables := [0; 1];
     TOM.rel_heap :=
       [{| TOM.rel_Name := "Sales_Customer";
           TOM.rel_FromColumn := Some (0, 1);
           TOM.rel_ToColumn := Some (1, 1) |}];
     TOM.Relationships := [0];
     TOM.perm_heap :=
       [{| TOM.tp_Table := Some 0;
           TOM.tp_ColumnPermissions := [{| TOM.cp_Column := Some (0, 2) |}] |}];
     TOM.Roles := [{| TOM.role_Name := "Reader"; TOM.role_TablePermissions := [0] |}];
     TOM.Cultures := ["en-US"] |}.

(** The same with the table Draft added. *)
Definition model_with_draft : TOM.Model :=
  (TOM.Tables_Add 2 (TOM.with_table_heap (fun h => h ++ [Draft]) model)).2.

Definition jobs : DataFrame :=
  {| df_columns := ["JOB_ID"; "JOB_DESCRIPTION"];
     df_rows := [["1"; "Process"]; ["2"; "Query"]] |}.

Definition impact : Native.Impact :=
  {| Native.PropertyChanges :=
       [{| Native.NewValue := "Sales_backup"; Native.Object := "Table";
           Native.OriginalValue := "Sales"; Native.PropertyName := "Name";
           Native.PropertyType := "String" |}];
     Native.AddedObjects := ["Sales_backup"];
     Native.AddedSubtreeRoots := ["Sales_backup"];
     Native.RemovedObjects := [];
     Native.RemovedSubtreeRoots := [] |}.

(** A native Model with its own members only, a server that reports a
    running process, a first save that changes something, and an
    editor that reports one violation. *)
Definition answers : Oracle :=
  {| Model_has_member := fun name =>
       Builtins.member name
         ["Name"; "Tables"; "Relationships"; "Roles"; "Cultures"; "SaveChanges"];
     Collection_has_member := fun name =>
       Builtins.member name ["Find"; "Add"; "Remove"; "GetEnumerator"];
     save_answer := fun n =>
       Return {| Native.Impact_ := if Nat.eqb n 0 then Some impact else None;
                 Native.XmlaResults := [] |};
     query_answer := fun _ _ => Frame jobs;
     refresh_answer := fun _ => {| df_columns := []; df_rows := [] |};
     subprocess_answer := fun _ =>
       ("Table Sales violates rule R1" +:+ String Str.newline "done", "");
     getcwd := "C:\work" |}.

Definition database (m : TOM.Model) : Database :=
  {| db_Name := "AdventureWorks"; db_CompatibilityLevel := 1550;
     db_CompatibilityMode := 1; db_Model := m |}.

Definition server : Server :=
  {| Connect_answer := fun _ => None;
     srv_Name := "localhost";
     srv_ConnectionString := "Data Source=localhost";
     srv_Catalog := Some "AdventureWorks";
     srv_Databases :=
       [{| db_Name := "Other"; db_CompatibilityLevel := 1200;
           db_CompatibilityMode := 1; db_Model := model |};
        database model];
     srv_Databases_fault := None;
     srv_Connection_fault := None;
     srv_Refresh_fault := None;
     srv_oracle := answers |}.

(** The server when listing its databases fails after the last one. *)
Definition faulty_server : Server :=
  {| Connect_answer := Connect_answer server;
     srv_Name := srv_Name server;
     srv_ConnectionString := srv_ConnectionString server;
     srv_Catalog := srv_Catalog server;
     srv_Databases := srv_Databases server;
     srv_Databases_fault := Some (NativeError "connection lost");
     srv_Connection_fault := None;
     srv_Refresh_fault := None;
     srv_oracle := answers |}.

Definition world_of (m : TOM.Model) : World :=
  {| Server_Name := "localhost"; Server_Connected := true;
     Server_ConnectionString := "Data Source=localhost";
     the_Database := database m; oracle := answers;
     saves_done := 0; connections_made := 1; trace := [] |}.

Definition facade : Tabular.t :=
  {| Tabular.Catalog := Some "AdventureWorks";
     Tabular.CompatibilityLevel := 1550; Tabular.CompatibilityMode := 1;
     Tabular.Adomd := {| conn_id := 0; conn_effective_user := None;
                         ConnectionString := "Data Source=localhost" |};
     Tabular.Effective_Users := ∅;
     Tabular.Tables := []; Tabular.Relationships := []; Tabular.Partitions := [];
     Tabular.Columns := []; Tabular.Measures := []; Tabular.Cultures := [] |}.

(** A facade on [model], its collections loaded. *)
Definition state : Tabular.State :=
  (Tabular.reload_model_info {| Tabular.self := facade; Tabular.world := world_of model |}).2.

(** A facade on [model_with_draft]. *)
Definition state_with_draft : Tabular.State :=
  (Tabular.reload_model_info
     {| Tabular.self := facade; Tabular.world := world_of model_with_draft |}).2.

End Example.

(** ** Vocabulary of the statements *)

(** The command line [analyze_bpa] hands to the shell. *)
Definition bpa_command (tabular_editor_exe best_practice_analyzer : string) (s : Tabular.State)
    : string :=
  tabular_editor_exe +:+ " " +:+ Str.quote +:+ "Provider=MSOLAP;" +:+
  ConnectionString (Tabular.Adomd (Tabular.self s)) +:+ Str.quote +:+ " " +:+
  db_Name (the_Database (Tabular.world s)) +:+ " -B " +:+
  Str.quote +:+ (getcwd (oracle (Tabular.world s)) +:+ "\Model.bim") +:+ Str.quote +:+ " -A " +:+
  best_practice_analyzer +:+ " -V/?".

(** A child wrapper that wraps a partition of the table [t] and keeps
    [t] as its table, as [PyTable.__init__] makes them. *)
Definition is_partition_of (t : nat) (p : PyChild) : Prop :=
  child_Table p = t /\ exists slot, child_object p = TOM.PartitionRef t slot.

(** A table wrapper whose partition wrappers are those of its table. *)
Definition built (tbl : PyTable.t) : Prop :=
  Forall (is_partition_of (PyTable._object tbl)) (PyTable.Partitions tbl).

(** The name of the table of a wrapper, as the store has it. *)
Definition table_Name (w : World) (tbl : PyTable.t) : string :=
  TOM.tbl_Name (TOM.table (Model w) (PyTable._object tbl)).

(** The refresh time of the partition of a wrapper, as the store has it. *)
Definition refreshed (w : World) (p : PyChild) : Z :=
  match child_object p with
  | TOM.PartitionRef t slot =>
      TOM.part_RefreshedTime (TOM.tbl_Partitions (TOM.table (Model w) t) !!! slot)
  | _ => 0%Z
  end.

Definition refresh_times (w : World) (tbl : PyTable.t) : list Z :=
  refreshed w <$> PyTable.Partitions tbl.

(** The rows [PyTables.Last_Refresh] builds from one table wrapper, at
    the grain of the table and at the grain of the partition. *)
Definition table_row (w : World) (p : PyChild) : string * Z :=
  (TOM.tbl_Name (TOM.table (Model w) (child_Table p)), refreshed w p).

Definition partition_row (w : World) (p : PyChild) : string * string * Z :=
  (TOM.tbl_Name (TOM.table (Model w) (child_Table p)),
   TOM.get_Name (Model w) (child_object p),
   refreshed w p).

(** The test of the list comprehension of [__init__]:
    [database.Name == self.Catalog or self.Catalog is None]. *)
Definition matches_Catalog (srv : Server) (database : Database) : bool :=
  match srv_Catalog srv with
  | Some catalog => String.eqb (db_Name database) catalog
  | None => true
  end.

(** The message of the exception of [__init__]. *)
Definition err_msg (srv : Server) : string :=
  "Unable to find Database... " +:+ Builtins.str (srv_Catalog srv).

(** *** The query of [Query_All] *)

(** One row of the union: the table under its name, and the query
    function with the quoted table for every underscore. *)
Definition ROW_text (table_name query_function : string) : string :=
  "ROW(" +:+ Str.quote +:+ "Table" +:+ Str.quote +:+ "," +:+
  Str.quote +:+ table_name +:+ Str.quote +:+ "," +:+
  Str.quote +:+ query_function +:+ Str.quote +:+ "," +:+
  StrMore.replace "_" ("'" +:+ table_name +:+ "'") query_function +:+ ")".

(** The rows of a union are separated by a comma and a line break. *)
Definition row_separator : string := "," +:+ String Str.newline EmptyString.

(** * Properties *)

Import Tabular.

(** ** The loops of Python, as list functions *)

Lemma foldl_snoc {A} (acc l : list A) :
  foldl (fun acc y => acc ++ [y]) acc l = acc ++ l.
Proof.
  revert acc. induction l as [|y l IH]; intros acc; simpl.
  - by rewrite app_nil_r.
  - rewrite IH, <- app_assoc. done.
Qed.

Lemma nested_for_concat {A B} (outer : list A) (inner : A -> list B) :
  Builtins.nested_for outer inner = concat (inner <$> outer).
Proof.
  unfold Builtins.nested_for.
  enough (H : forall acc,
    foldl (fun acc x => foldl (fun acc y => acc ++ [y]) acc (inner x)) acc outer
    = acc ++ concat (inner <$> outer)) by apply H.
  induction outer as [|x outer IH]; intros acc; simpl.
  - by rewrite app_nil_r.
  - rewrite IH, foldl_snoc, <- app_assoc. done.
Qed.

(** ** [query] without an effective user *)

(** C1. For every query string, [query] with [effective_user = None]
    gives back exactly what the [query] method of the wrapped connection
    [self.Adomd] gives on that string: the same value, which is the
    answer of the native connection, with the facade left as it was and
    the one query sent on. *)
Theorem query_passes_through (query_str : string) (s : State) :
  query query_str None s
    = native (Connection_.query (Adomd (self s)) query_str) s
  /\ (query query_str None s).1
     = (Connection_.query (Adomd (self s)) query_str (world s)).1
  /\ (query query_str None s).1
     = Return (query_answer (oracle (world s)) (conn_id (Adomd (self s))) query_str)
  /\ self (query query_str None s).2 = self s
  /\ trace (world (query query_str None s).2)
     = trace (world s) ++ [Connection_query (conn_id (Adomd (self s))) query_str].
Proof. repeat split. Qed.

(** ** [reload_model_info] *)

(** The facade after a reload, as a function of the metadata. *)
Lemma reload_model_info_run (s : State) :
  exists s',
    reload_model_info s = (Return true, s')
    /\ Tables (self s')
       = PyTable.__init__ (Model (world s)) <$> TOM.Tables (Model (world s))
    /\ Partitions (self s') = Builtins.nested_for (Tables (self s')) PyTable.Partitions
    /\ Columns (self s') = Builtins.nested_for (Tables (self s')) PyTable.Columns
    /\ Measures (self s') = Builtins.nested_for (Tables (self s')) PyTable.Measures
    /\ Relationships (self s') = TOM.Relationships (Model (world s))
    /\ Effective_Users (self s') = Effective_Users (self s)
    /\ Adomd (self s') = Adomd (self s)
    /\ world s' = log Database_Refresh (world s).
Proof. eexists. repeat split. Qed.

(** C5. After every call of [reload_model_info], the [Partitions],
    [Columns] and [Measures] of the facade are the concatenations, in the
    order of the tables, of the partitions, columns and measures of the
    tables of the rebuilt [Tables], and the call returns [True]; the same
    holds of an instance as [__init__] leaves it. *)
Theorem reload_model_info_collections :
  (forall s : State,
     exists s',
       reload_model_info s = (Return true, s')
       /\ Tables (self s')
          = PyTable.__init__ (Model (world s)) <$> TOM.Tables (Model (world s))
       /\ Partitions (self s') = concat (PyTable.Partitions <$> Tables (self s'))
       /\ Columns (self s') = concat (PyTable.Columns <$> Tables (self s'))
       /\ Measures (self s') = concat (PyTable.Measures <$> Tables (self s')))
  /\ (forall connection_str srv s t,
        __init__ connection_str srv = (Return s, t) ->
        Tables (self s)
          = PyTable.__init__ (Model (world s)) <$> TOM.Tables (Model (world s))
        /\ Partitions (self s) = concat (PyTable.Partitions <$> Tables (self s))
        /\ Columns (self s) = concat (PyTable.Columns <$> Tables (self s))
        /\ Measures (self s) = concat (PyTable.Measures <$> Tables (self s))).
Proof.
  split.
  - intros s. destruct (reload_model_info_run s) as (s' & E & HT & HP & HC & HM & _).
    exists s'. rewrite HP, HC, HM, !nested_for_concat. done.
  - intros connection_str srv s t. unfold __init__.
    destruct (connect connection_str srv []) as [[db|e] t0]; [|discriminate].
    unfold bind.
    destruct (srv_Connection_fault srv); [discriminate|].
    cbn -[Builtins.nested_for].
    destruct (srv_Refresh_fault srv); [discriminate|].
    cbn -[Builtins.nested_for]. intros [= <- _].
    cbn -[Builtins.nested_for]. rewrite !nested_for_concat. done.
Qed.

(** ** [save_changes] *)

Lemma occurrences_app (e : Event) (t1 t2 : list Event) :
  occurrences e (t1 ++ t2) = occurrences e t1 + occurrences e t2.
Proof. unfold occurrences. by rewrite filter_app, length_app. Qed.

Lemma occurrences_snoc (e e' : Event) (t : list Event) :
  occurrences e (t ++ [e']) = occurrences e t + (if decide (e' = e) then 1 else 0).
Proof.
  rewrite occurrences_app. f_equal. unfold occurrences.
  rewrite filter_cons, filter_nil. by destruct (decide (e' = e)).
Qed.

(** C2. [save_changes] calls the native [SaveChanges] exactly once,
    after a reconnect when the server is not connected. When the
    [Impact] of the result is [None] it returns [None] and leaves the
    cached collections of the facade as they were; otherwise it reloads
    the model info and returns the named tuple of the property changes
    (the new value, object, original value, property name and property
    type of each change of the result, in order), added objects, added
    subtree roots, removed objects, removed subtree roots and XMLA
    results of the result. What the native [SaveChanges] raises reaches
    the caller, after that one call. *)
Theorem save_changes_spec (s : State) :
  let answer := save_answer (oracle (world s)) (saves_done (world s)) in
  let reconnects :=
    if Server_Connected (world s) then [] else [Server_Reconnect] in
  occurrences Model_SaveChanges (trace (world (save_changes s).2))
    = S (occurrences Model_SaveChanges (trace (world s)))
  /\ (exists rest,
        trace (world (save_changes s).2)
          = trace (world s) ++ reconnects ++ Model_SaveChanges :: rest)
  /\ match answer with
     | Raise e =>
         (save_changes s).1 = Raise e
         /\ self (save_changes s).2 = self s
     | Return model_save_results =>
         match Native.Impact_ model_save_results with
         | None =>
             (save_changes s).1 = Return None
             /\ self (save_changes s).2 = self s
         | Some impact =>
             (save_changes s).1
               = Return (Some
                   {| property_changes_ :=
                        (fun change =>
                           {| new_value := Native.NewValue change;
                              object := Native.Object change;
                              original_value := Native.OriginalValue change;
                              property_name := Native.PropertyName change;
                              property_type := Native.PropertyType change |})
                          <$> Native.PropertyChanges impact;
                      added_objects := Native.AddedObjects impact;
                      added_subtree_roots := Native.AddedSubtreeRoots impact;
                      removed_objects := Native.RemovedObjects impact;
                      removed_subtree_Roots := Native.RemovedSubtreeRoots impact;
                      xmla_results := Native.XmlaResults model_save_results |})
             /\ exists s1,
                  reload_model_info s1 = (Return true, (save_changes s).2)
                  /\ self s1 = self s
                  /\ Model (world s1) = Model (world s)
         end
     end.
Proof.
  intros answer reconnects. subst answer reconnects.
  unfold save_changes, Model_SaveChanges_, reconnect, bind, gets, modify, emit.
  destruct s as [o w]. destruct w as [sn connected cs db orc sd cm tr].
  destruct connected; cbn -[Builtins.nested_for occurrences reload_model_info];
    destruct (save_answer orc sd) as [model_save_results|e] eqn:Eanswer;
    cbn -[Builtins.nested_for occurrences reload_model_info];
    try (destruct (Native.Impact_ model_save_results) as [impact|] eqn:E);
    cbn -[Builtins.nested_for occurrences].
  all: split;
    [rewrite !occurrences_snoc;
     repeat match goal with |- context [decide (?a = ?b)] =>
       destruct (decide (a = b)); try congruence end; lia|].
  all: split; [eexists; rewrite <- ?app_assoc; cbn; reflexivity|].
  all: split; [reflexivity|]; try reflexivity.
  - exists {| self := o;
              world := {| Server_Name := sn; Server_Connected := true;
                          Server_ConnectionString := cs; the_Database := db;
                          oracle := orc; saves_done := S sd;
                          connections_made := cm;
                          trace := tr ++ [Model_SaveChanges] |} |}.
    repeat split.
  - exists {| self := o;
              world := {| Server_Name := sn; Server_Connected := true;
                          Server_ConnectionString := cs; the_Database := db;
                          oracle := orc; saves_done := S sd;
                          connections_made := cm;
                          trace := (tr ++ [Server_Reconnect]) ++ [Model_SaveChanges] |} |}.
    repeat split.
Qed.

(** ** [is_process] *)

(** C7. [is_process] asks for [self.Query], but the method of the class
    is [query]: on a facade whose native Model has no member [Query]
    either, the call raises [AttributeError] before any query is sent,
    whatever the DMV would answer. *)
Theorem is_process_raises (s : State) :
  Model_has_member (oracle (world s)) "Query" = false ->
  is_process s = (Raise (AttributeError "Query"), s).
Proof.
  intros H. unfold is_process, getattr, bind, gets. cbn. rewrite H. done.
Qed.

(** On the example the DMV lists a job described as [Process], and
    [is_process] raises. *)
Lemma is_process_raises_witness :
  Model_has_member (oracle (world Example.state)) "Query" = false
  /\ (query "select * from $SYSTEM.DISCOVER_JOBS" None Example.state).1
     = Return (Frame Example.jobs)
  /\ ["1"; "Process"] ∈ df_rows Example.jobs
  /\ is_process Example.state = (Raise (AttributeError "Query"), Example.state).
Proof.
  split; [reflexivity|]. split; [reflexivity|]. split; [apply list_elem_of_here|].
  apply (is_process_raises Example.state). reflexivity.
Defined.

(** ** [query] with an effective user *)




(** ** Strings *)

Lemma prefix_app (needle hay : string) :
  String.prefix needle hay = true <-> exists post, hay = needle +:+ post.
Proof.
  revert hay. induction needle as [|c needle IH]; intros hay.
  - split; [intros _; exists hay; done|]. intros _. by destruct hay.
  - destruct hay as [|d hay]; simpl.
    + split; [done|]. intros [post H]. discriminate.
    + destruct (Ascii.ascii_dec c d) as [->|Hne].
      * rewrite IH. split; intros [post H]; exists post; [by rewrite H|].
        by injection H.
      * split; [done|]. intros [post H]. injection H as H1 H2. done.
Qed.

(** [needle in hay] holds exactly of the strings that have [needle]
    somewhere inside. *)
Lemma contains_spec (needle hay : string) :
  Str.contains needle hay = true
  <-> exists pre post, hay = pre +:+ needle +:+ post.
Proof.
  induction hay as [|c hay IH].
  - change (Str.contains needle "") with (String.prefix needle "" || false).
    rewrite orb_false_r, prefix_app. split.
    + intros [post H]. exists "", post. done.
    + intros (pre & post & H). destruct pre; [by exists post|discriminate].
  - change (Str.contains needle (String c hay))
      with (String.prefix needle (String c hay) || Str.contains needle hay).
    rewrite orb_true_iff, prefix_app, IH. split.
    + intros [[post H]|(pre & post & H)].
      * exists "", post. done.
      * exists (String c pre), post. simpl. by rewrite H.
    + intros (pre & post & H). destruct pre as [|d pre]; simpl in H.
      * left. by exists post.
      * right. injection H as _ H. by exists pre, post.
Qed.

Lemma split_not_nil (sep : ascii) (s : string) : Str.split sep s <> [].
Proof.
  induction s as [|c s IH]; simpl; [done|].
  destruct (Ascii.eqb c sep); [done|]. by destruct (Str.split sep s).
Qed.

(** The pieces of a split, joined by the separator, are the string. *)
Lemma join_split (sep : ascii) (s : string) : Str.join sep (Str.split sep s) = s.
Proof.
  induction s as [|c s IH]; [done|].
  pose proof (split_not_nil sep s) as Hnil.
  change (Str.split sep (String c s))
    with (if Ascii.eqb c sep then EmptyString :: Str.split sep s
          else match Str.split sep s with
               | piece :: pieces => String c piece :: pieces
               | [] => [String c EmptyString]
               end).
  destruct (Ascii.eqb_spec c sep) as [->|Hne].
  - destruct (Str.split sep s) as [|piece pieces]; [done|].
    change (Str.join sep ("" :: piece :: pieces))
      with (String sep (Str.join sep (piece :: pieces))).
    by rewrite IH.
  - destruct (Str.split sep s) as [|piece pieces]; [done|].
    destruct pieces as [|piece' pieces].
    + simpl in *. by rewrite IH.
    + change (Str.join sep (String c piece :: piece' :: pieces))
        with (String c (piece +:+ String sep (Str.join sep (piece' :: pieces)))).
      f_equal. exact IH.
Qed.

(** No piece of a split holds the separator. *)
Lemma split_pieces (sep : ascii) (s piece : string) :
  piece ∈ Str.split sep s ->
  Str.contains (String sep "") piece = false.
Proof.
  revert piece. induction s as [|c s IH]; intros piece.
  - intros ->%list_elem_of_singleton. done.
  - pose proof (split_not_nil sep s) as Hnil.
    change (Str.split sep (String c s))
      with (if Ascii.eqb c sep then EmptyString :: Str.split sep s
            else match Str.split sep s with
                 | piece :: pieces => String c piece :: pieces
                 | [] => [String c EmptyString]
                 end).
    destruct (Ascii.eqb_spec c sep) as [->|Hne].
    + intros [->|H]%elem_of_cons; [done|]. by apply IH.
    + destruct (Str.split sep s) as [|first pieces]; [done|].
      intros [->|H]%elem_of_cons.
      * apply not_true_iff_false. rewrite contains_spec.
        intros (pre & post & H). destruct pre as [|d pre]; simpl in H.
        { injection H as H _. done. }
        injection H as _ H.
        assert (Str.contains (String sep "") first = true) as Hc
          by (apply contains_spec; eauto).
        rewrite IH in Hc; [done|left].
      * apply IH. by right.
Qed.

(** ** [analyze_bpa] *)

(** C8. [analyze_bpa] runs the Tabular Editor executable through one
    subprocess. When the subprocess writes nothing to stderr the result
    is exactly the list of the lines of stdout that contain
    [violates rule], in their order; when stderr is not empty the result
    is the text of stderr and no list. *)
Theorem analyze_bpa_spec (tabular_editor_exe best_practice_analyzer : string)
    (s : State) :
  let cmd := bpa_command tabular_editor_exe best_practice_analyzer s in
  let raw_output := (subprocess_answer (oracle (world s)) cmd).1 in
  let error := (subprocess_answer (oracle (world s)) cmd).2 in
  let lines := Str.split Str.newline raw_output in
  (exists arguments, cmd = tabular_editor_exe +:+ arguments)
  /\ occurrences (subprocess_Popen cmd)
       (trace (world (analyze_bpa tabular_editor_exe best_practice_analyzer s).2))
     = S (occurrences (subprocess_Popen cmd) (trace (world s)))
  /\ Str.join Str.newline lines = raw_output
  /\ (error = "" ->
      exists result,
        (analyze_bpa tabular_editor_exe best_practice_analyzer s).1
          = Return (violations result)
        /\ result = filter (fun line => Str.contains "violates rule" line = true) lines
        /\ forall line,
             line ∈ result
             <-> line ∈ lines
                 /\ exists pre post, line = pre +:+ "violates rule" +:+ post)
  /\ (error <> "" ->
      (analyze_bpa tabular_editor_exe best_practice_analyzer s).1
        = Return (error_text error)).
Proof.
  intros cmd raw_output error lines.
  assert (Hrun : analyze_bpa tabular_editor_exe best_practice_analyzer s
    = (if Nat.ltb 0 (String.length error)
       then Return (error_text error)
       else Return (violations
              (filter (fun line => Str.contains "violates rule" line = true) lines)),
       with_world (log (subprocess_Popen cmd))
         (with_world
            (log (atexit_register
                    ("remove_file " +:+ (getcwd (oracle (world s)) +:+ "\Model.bim")))) s))).
  { subst lines error raw_output cmd.
    unfold analyze_bpa, bpa_command, bind, gets, emit, modify. cbn -[Str.split filter].
    destruct (subprocess_answer _ _) as [out err]. cbn -[Str.split filter].
    by destruct (String.length err). }
  rewrite Hrun. cbn -[Str.split filter occurrences].
  split; [by eexists|].
  split.
  { rewrite !occurrences_snoc.
    destruct (decide (subprocess_Popen cmd = subprocess_Popen cmd)); [|done].
    destruct (decide (atexit_register _ = subprocess_Popen cmd)); [done|]. lia. }
  split; [apply join_split|].
  split.
  - intros ->. eexists. split; [reflexivity|]. split; [reflexivity|].
    intros line. rewrite list_elem_of_filter, contains_spec. tauto.
  - intros Hne. destruct error; [done|]. reflexivity.
Qed.

Lemma analyze_bpa_spec_witness :
  (subprocess_answer (oracle (world Example.state))
     (bpa_command "TabularEditor.exe" "BPARules.json" Example.state)).2 = ""
  /\ (analyze_bpa "TabularEditor.exe" "BPARules.json" Example.state).1
     = Return (violations ["Table Sales violates rule R1"]).
Proof.
  split; [reflexivity|].
  destruct (analyze_bpa_spec "TabularEditor.exe" "BPARules.json" Example.state)
    as (_ & _ & _ & H & _).
  destruct (H eq_refl) as (result & -> & -> & _). reflexivity.
Defined.

(** ** [Last_Refresh] *)

Lemma comprehension_gets {S A B} (xs : list A) (f : A -> S -> B) (s : S) :
  comprehension xs (fun x => gets (f x)) s = (Return ((fun x => f x s) <$> xs), s).
Proof.
  induction xs as [|x xs IH]; [done|].
  simpl. unfold bind, gets in *. by rewrite IH.
Qed.

Lemma comprehension_cons {S A B} (x : A) (xs : list A) (f : A -> M S B) (s : S) :
  comprehension (x :: xs) f s
  = match f x s with
    | (Return y, s') =>
        match comprehension xs f s' with
        | (Return ys, s'') => (Return (y :: ys), s'')
        | (Raise e, s'') => (Raise e, s'')
        end
    | (Raise e, s') => (Raise e, s')
    end.
Proof.
  simpl. unfold bind. destruct (f x s) as [[y|e] s']; [|done].
  by destruct (comprehension xs f s') as [[ys|e] s''].
Qed.

Lemma Last_Refresh_partition (w : World) (t : nat) (p : PyChild) :
  is_partition_of t p ->
  PyPartition.Last_Refresh p w = (Return (refreshed w p), w).
Proof.
  intros [_ [slot Hp]]. unfold PyPartition.Last_Refresh, refreshed. by rewrite Hp.
Qed.

Lemma comprehension_Last_Refresh (w : World) (t : nat) (ps : list PyChild) :
  Forall (is_partition_of t) ps ->
  comprehension ps PyPartition.Last_Refresh w = (Return (refreshed w <$> ps), w).
Proof.
  induction 1 as [|p ps Hp _ IH]; [done|].
  by rewrite comprehension_cons, (Last_Refresh_partition w t p Hp), IH.
Qed.

Lemma comprehension_Last_Refresh_concat (w : World) (tables : list PyTable.t) :
  Forall built tables ->
  comprehension (concat (PyTable.Partitions <$> tables)) PyPartition.Last_Refresh w
    = (Return (refreshed w <$> concat (PyTable.Partitions <$> tables)), w).
Proof.
  intros Hb.
  assert (Forall (fun p => exists t, is_partition_of t p)
            (concat (PyTable.Partitions <$> tables))) as H.
  { induction Hb as [|tbl tables Htbl _ IH]; [constructor|].
    cbn. apply Forall_app. split; [|done].
    eapply Forall_impl; [exact Htbl|]. eauto. }
  induction H as [|p ps [t Hp] _ IH]; [done|].
  by rewrite comprehension_cons, (Last_Refresh_partition w t p Hp), IH.
Qed.

Lemma foldl_max_upper (x : Z) (l : list Z) :
  forall y, y ∈ x :: l -> (y <= foldl Z.max x l)%Z.
Proof.
  revert x. induction l as [|z l IH]; intros x y Hy; simpl.
  - apply list_elem_of_singleton in Hy. lia.
  - apply elem_of_cons in Hy as [->|Hy].
    + etransitivity; [|apply IH; left]. lia.
    + apply elem_of_cons in Hy as [->|Hy].
      * etransitivity; [|apply IH; left]. lia.
      * apply IH. by right.
Qed.

Lemma foldl_max_elem (x : Z) (l : list Z) : foldl Z.max x l ∈ x :: l.
Proof.
  revert x. induction l as [|z l IH]; intros x; simpl; [left|].
  specialize (IH (Z.max x z)). apply elem_of_cons in IH as [IH|IH].
  - rewrite IH. destruct (Z.max_spec x z) as [[_ ->]|[_ ->]]; [right; left|left].
  - right. by right.
Qed.

Lemma zip_three {A B C D} (f : A -> B) (g : A -> C) (h : A -> D) (l : list A) :
  zip (zip (f <$> l) (g <$> l)) (h <$> l) = (fun x => (f x, g x, h x)) <$> l.
Proof. induction l as [|x l IH]; [done|]. cbn. by rewrite IH. Qed.

(** The frame before the grouping: one row for each partition wrapper,
    the tables in order and the partitions of each in order. *)
Lemma Last_Refresh_by_partition (w : World) (tables : list PyTable.t) :
  Forall built tables ->
  PyTables.Last_Refresh tables false w
    = (Return (PyTables.by_partition
                 (partition_row w <$> concat (PyTable.Partitions <$> tables))), w).
Proof.
  intros Hb. unfold PyTables.Last_Refresh. rewrite nested_for_concat.
  unfold bind at 1. rewrite comprehension_gets.
  unfold bind at 1. rewrite comprehension_gets.
  unfold bind at 1. rewrite comprehension_Last_Refresh_concat by done.
  cbn. rewrite zip_three. done.
Qed.

Lemma Last_Refresh_by_table (w : World) (tables : list PyTable.t) :
  Forall built tables ->
  PyTables.Last_Refresh tables true w
    = (Return (PyTables.by_table
                 (Pandas.groupby_max
                    (table_row w <$> concat (PyTable.Partitions <$> tables)))), w).
Proof.
  intros Hb. unfold PyTables.Last_Refresh. rewrite nested_for_concat.
  unfold bind at 1. rewrite comprehension_gets.
  unfold bind at 1. rewrite comprehension_gets.
  unfold bind at 1. rewrite comprehension_Last_Refresh_concat by done.
  cbn -[Pandas.groupby_max]. rewrite zip_three, <- list_fmap_compose. done.
Qed.

(** What the grouping keeps: a row for each key, once, with the largest
    value of the key. *)
Lemma groupby_max_spec (rows : list (string * Z)) :
  NoDup (Pandas.groupby_max rows).*1
  /\ Sorted String.le (Pandas.groupby_max rows).*1
  /\ forall key v,
       (key, v) ∈ Pandas.groupby_max rows
       <-> key ∈ rows.*1 /\ v = Pandas.group_max key rows.
Proof.
  unfold Pandas.groupby_max.
  assert ((((fun key => (key, Pandas.group_max key rows)) <$>
             merge_sort String.le (remove_dups rows.*1)).*1)
          = merge_sort String.le (remove_dups rows.*1)) as ->.
  { rewrite <- list_fmap_compose. apply list_fmap_id. }
  split; [|split].
  - rewrite merge_sort_Permutation. apply NoDup_remove_dups.
  - apply Sorted_merge_sort. apply _.
  - intros key v. rewrite list_elem_of_fmap. split.
    + intros (k & [= -> ->] & Hk).
      rewrite merge_sort_Permutation, elem_of_remove_dups in Hk. done.
    + intros [Hk ->]. exists key. split; [done|].
      by rewrite merge_sort_Permutation, elem_of_remove_dups.
Qed.

(** The rows of a built table carry its name. *)
Lemma table_rows_key (w : World) (tbl : PyTable.t) :
  built tbl ->
  Forall (fun row => row.1 = table_Name w tbl) (table_row w <$> PyTable.Partitions tbl).
Proof.
  intros Hb. apply Forall_fmap. eapply Forall_impl; [exact Hb|].
  intros p [Hp _]. unfold table_row, table_Name. cbn. by rewrite Hp.
Qed.

Lemma filter_all {A} (P : A -> Prop) `{forall x, Decision (P x)} (l : list A) :
  Forall P l -> filter P l = l.
Proof.
  induction 1 as [|x l Hx _ IH]; [done|].
  rewrite filter_cons. destruct (decide (P x)); [|done]. by rewrite IH.
Qed.

Lemma filter_none {A} (P : A -> Prop) `{forall x, Decision (P x)} (l : list A) :
  Forall (fun x => ~ P x) l -> filter P l = [].
Proof.
  induction 1 as [|x l Hx _ IH]; [done|].
  rewrite filter_cons. destruct (decide (P x)); done.
Qed.

(** With distinct table names, the rows of a key are the rows of the
    one table of that name. *)
Lemma rows_of_table (w : World) (tables : list PyTable.t) (tbl : PyTable.t) :
  Forall built tables ->
  NoDup (table_Name w <$> tables) ->
  tbl ∈ tables ->
  (filter (fun row => row.1 = table_Name w tbl)
     (table_row w <$> concat (PyTable.Partitions <$> tables))).*2
  = refresh_times w tbl.
Proof.
  intros Hb Hnd Hin. induction tables as [|t tables IH]; [by apply elem_of_nil in Hin|].
  apply Forall_cons in Hb as [Ht Hb]. cbn in Hnd. apply NoDup_cons in Hnd as [Hnt Hnd].
  cbn. rewrite fmap_app, filter_app, fmap_app.
  apply elem_of_cons in Hin as [->|Hin].
  - rewrite filter_all by (by apply table_rows_key).
    rewrite filter_none.
    + rewrite app_nil_r. unfold refresh_times.
      rewrite <- list_fmap_compose. done.
    + clear IH Hnd. induction Hb as [|t' tables Ht' _ IH]; [constructor|].
      cbn. rewrite fmap_app. apply Forall_app. split.
      * eapply Forall_impl; [apply table_rows_key, Ht'|].
        intros row Hrow Heq. cbn in *. apply Hnt. rewrite <- Heq, Hrow. left.
      * apply IH. intros H. apply Hnt. by right.
  - rewrite filter_none.
    + by apply IH.
    + eapply Forall_impl; [apply table_rows_key, Ht|].
      intros row Hrow Heq. cbn in *. apply Hnt. rewrite <- Hrow, Heq.
      apply list_elem_of_fmap. eauto.
Qed.

Lemma elem_of_concat {A} (x : A) (ls : list (list A)) :
  x ∈ concat ls <-> exists l, x ∈ l /\ l ∈ ls.
Proof.
  induction ls as [|l ls IH]; simpl.
  - split; [by intros ?%elem_of_nil|]. by intros (l & _ & ?%elem_of_nil).
  - rewrite elem_of_app, IH. split.
    + intros [H|(l' & H1 & H2)]; [exists l; split; [done|left]|].
      exists l'. split; [done|by right].
    + intros (l' & H1 & [->|H2]%elem_of_cons); [by left|]. right. eauto.
Qed.

(** The keys of the rows are the names of the tables that have a
    partition. *)
Lemma keys_of_rows (w : World) (tables : list PyTable.t) (key : string) :
  Forall built tables ->
  key ∈ (table_row w <$> concat (PyTable.Partitions <$> tables)).*1
  <-> exists tbl, tbl ∈ tables /\ PyTable.Partitions tbl <> [] /\ table_Name w tbl = key.
Proof.
  intros Hb. rewrite <- list_fmap_compose, list_elem_of_fmap. split.
  - intros (p & -> & Hp). apply elem_of_concat in Hp as (ps & Hp & Hps).
    apply list_elem_of_fmap in Hps as (tbl & -> & Htbl).
    exists tbl. split; [done|]. split.
    + intros E. rewrite E in Hp. by apply elem_of_nil in Hp.
    + rewrite Forall_forall in Hb. specialize (Hb _ Htbl).
      unfold built in Hb. rewrite Forall_forall in Hb.
      destruct (Hb _ Hp) as [E _]. unfold table_Name. cbn. by rewrite E.
  - intros (tbl & Htbl & Hne & <-).
    destruct (PyTable.Partitions tbl) as [|p ps] eqn:E; [done|].
    exists p. split.
    + rewrite Forall_forall in Hb. specialize (Hb _ Htbl).
      unfold built in Hb. rewrite E in Hb. apply Forall_cons in Hb as [[Hp _] _].
      unfold table_Name. cbn. by rewrite Hp.
    + apply elem_of_concat. exists (p :: ps). split; [left|].
      apply list_elem_of_fmap. exists tbl. by rewrite E.
Qed.

Lemma PyTable_Last_Refresh_run (w : World) (tbl : PyTable.t) :
  built tbl ->
  PyTable.Last_Refresh tbl w
  = (match refresh_times w tbl with
     | [] => Raise (ValueError "max() arg is an empty sequence")
     | x :: rest => Return (foldl Z.max x rest)
     end, w).
Proof.
  intros Hb. unfold PyTable.Last_Refresh, bind.
  rewrite (comprehension_Last_Refresh w (PyTable._object tbl)) by exact Hb.
  fold (refresh_times w tbl). by destruct (refresh_times w tbl).
Qed.

(** C9, as the code has it. A table wrapper with at least one partition
    gives the maximum of the refresh times of its partitions, and one
    without partitions raises. [PyTables.Last_Refresh] with
    [group_partition=True] returns one row for each table that has at
    least one partition, holding the maximum refresh time of that table,
    and no row for a table without partitions; with
    [group_partition=False] it returns one row for each partition. The
    tables are wrappers as [PyTable.__init__] builds them, with names that
    differ from table to table. *)
Theorem Last_Refresh_spec (w : World) (tables : list PyTable.t) :
  Forall built tables ->
  NoDup (table_Name w <$> tables) ->
  (forall tbl, tbl ∈ tables ->
     (PyTable.Partitions tbl <> [] ->
      exists v,
        PyTable.Last_Refresh tbl w = (Return v, w)
        /\ v ∈ refresh_times w tbl
        /\ forall y, y ∈ refresh_times w tbl -> (y <= v)%Z)
     /\ (PyTable.Partitions tbl = [] ->
         exists msg, PyTable.Last_Refresh tbl w = (Raise (ValueError msg), w)))
  /\ (exists rows,
        PyTables.Last_Refresh tables true w = (Return (PyTables.by_table rows), w)
        /\ NoDup rows.*1
        /\ forall name v,
             (name, v) ∈ rows
             <-> exists tbl,
                   tbl ∈ tables
                   /\ PyTable.Partitions tbl <> []
                   /\ table_Name w tbl = name
                   /\ PyTable.Last_Refresh tbl w = (Return v, w))
  /\ (exists rows,
        PyTables.Last_Refresh tables false w = (Return (PyTables.by_partition rows), w)
        /\ rows = partition_row w <$> concat (PyTable.Partitions <$> tables)
        /\ length rows = length (concat (PyTable.Partitions <$> tables))).
Proof.
  intros Hb Hnd.
  assert (Hrun : forall tbl, tbl ∈ tables ->
    PyTable.Last_Refresh tbl w
    = (match refresh_times w tbl with
       | [] => Raise (ValueError "max() arg is an empty sequence")
       | x :: rest => Return (foldl Z.max x rest)
       end, w)).
  { intros tbl Htbl. apply PyTable_Last_Refresh_run.
    rewrite Forall_forall in Hb. by apply Hb. }
  split; [|split].
  - intros tbl Htbl. rewrite (Hrun tbl Htbl). unfold refresh_times. split.
    + intros Hne. destruct (PyTable.Partitions tbl) as [|p ps]; [done|]. cbn.
      eexists. split; [done|]. split; [apply foldl_max_elem|apply foldl_max_upper].
    + intros ->. cbn. eauto.
  - eexists. split; [by apply Last_Refresh_by_table|].
    destruct (groupby_max_spec
                (table_row w <$> concat (PyTable.Partitions <$> tables)))
      as (Hk & _ & Hrows).
    split; [exact Hk|]. intros name v. rewrite Hrows, keys_of_rows by done.
    assert (Hmax : forall tbl, tbl ∈ tables -> PyTable.Partitions tbl <> [] ->
      PyTable.Last_Refresh tbl w
      = (Return (Pandas.group_max (table_Name w tbl)
                   (table_row w <$> concat (PyTable.Partitions <$> tables))), w)).
    { intros tbl Htbl Hne. rewrite (Hrun tbl Htbl). unfold Pandas.group_max.
      rewrite (rows_of_table w tables tbl Hb Hnd Htbl).
      unfold refresh_times. by destruct (PyTable.Partitions tbl). }
    split.
    + intros [(tbl & Htbl & Hne & <-) ->]. exists tbl. by rewrite Hmax.
    + intros (tbl & Htbl & Hne & <- & Hv). split; [eauto|].
      rewrite Hmax in Hv by done. by injection Hv.
  - eexists. split; [by apply Last_Refresh_by_partition|]. split; [done|].
    by rewrite length_fmap.
Qed.

Lemma Last_Refresh_spec_witness :
  let w := world Example.state in
  let tables := Tables (self Example.state) in
  Forall built tables
  /\ NoDup (table_Name w <$> tables)
  /\ exists rows,
       PyTables.Last_Refresh tables true w = (Return (PyTables.by_table rows), w)
       /\ NoDup rows.*1.
Proof.
  assert (Hb : Forall built (Tables (self Example.state))).
  { repeat constructor; cbn; eauto. }
  assert (Hnd : NoDup (table_Name (world Example.state) <$> Tables (self Example.state))).
  { cbn. repeat constructor; set_solver. }
  split; [exact Hb|]. split; [exact Hnd|].
  destruct (Last_Refresh_spec (world Example.state) (Tables (self Example.state)) Hb Hnd)
    as (_ & (rows & Hrun & Hk & _) & _).
  exists rows. split; [exact Hrun|exact Hk].
Defined.

(** C9, as it is stated, fails on a model with a table that has no
    partition: the facade holds three tables, and the grouped frame has
    a row for Customer and a row for Sales and none for Draft. *)
Lemma Last_Refresh_misses_table_without_partitions :
  let w := world Example.state_with_draft in
  let tables := Tables (self Example.state_with_draft) in
  table_Name w <$> tables = ["Sales"; "Customer"; "Draft"]
  /\ PyTables.Last_Refresh tables true w
     = (Return (PyTables.by_table [("Customer", 3%Z); ("Sales", 9%Z)]), w)
  /\ ~ (exists rows,
          PyTables.Last_Refresh tables true w = (Return (PyTables.by_table rows), w)
          /\ forall tbl, tbl ∈ tables -> exists v, (table_Name w tbl, v) ∈ rows).
Proof.
  cbv zeta. split; [reflexivity|]. split; [vm_compute; reflexivity|].
  intros (rows & Hrun & Hall).
  assert (rows = [("Customer", 3%Z); ("Sales", 9%Z)]) as ->.
  { assert (PyTables.Last_Refresh (Tables (self Example.state_with_draft)) true
              (world Example.state_with_draft)
            = (Return (PyTables.by_table [("Customer", 3%Z); ("Sales", 9%Z)]),
               world Example.state_with_draft)) as E by (vm_compute; reflexivity).
    rewrite E in Hrun. by injection Hrun. }
  destruct (Hall (PyTable.__init__ Example.model_with_draft 2)) as [v Hv].
  { cbn. right. right. left. }
  cbn in Hv. set_solver.
Qed.

(** ** [__init__] *)

Lemma comprehension_if_pure {S A} (xs : list A) (p : A -> bool) (s : S) :
  comprehension_if xs (fun x => ret (p x)) ret s = (Return (List.filter p xs), s).
Proof.
  induction xs as [|x xs IH]; [done|].
  simpl. unfold bind, ret in *. destruct (p x); by rewrite IH.
Qed.

Lemma first_Database_run (srv : Server) (t : list Event) :
  first_Database srv t
  = (match srv_Databases_fault srv with
     | Some e => Raise e
     | None =>
         match List.filter (matches_Catalog srv) (srv_Databases srv) with
         | [] => Raise IndexError
         | database :: _ => Return database
         end
     end, t).
Proof.
  unfold first_Database, bind.
  change (fun database => ret (match srv_Catalog srv with
                                | Some catalog => String.eqb (db_Name database) catalog
                                | None => true
                                end))
    with (fun database : Database => @ret (list Event) bool (matches_Catalog srv database)).
  rewrite comprehension_if_pure.
  destruct (srv_Databases_fault srv); [done|].
  by destruct (List.filter _ _).
Qed.

Lemma filter_first {A} (p : A -> bool) (before after : list A) (x : A) :
  Forall (fun y => p y = false) before ->
  p x = true ->
  List.filter p (before ++ x :: after) = x :: List.filter p after.
Proof.
  intros Hb Hx. induction Hb as [|y before Hy _ IH]; simpl.
  - by rewrite Hx.
  - by rewrite Hy.
Qed.

Lemma filter_no_match {A} (p : A -> bool) (l : list A) :
  Forall (fun y => p y = false) l -> List.filter p l = [].
Proof. induction 1 as [|y l Hy _ IH]; simpl; [done|]. by rewrite Hy. Qed.

(** C6, as the code has it. [__init__] selects the database the server
    lists whose [Name] equals the [Catalog] of the connection (the first
    of them), or the first database listed when [Catalog] is [None]. It
    raises an exception whose message names the catalog when no database
    matches, and also when listing the databases raises, whatever was
    raised there; the message is logged as an error. Errors are
    otherwise what the native runtime raises: what [Server.Connect], the
    making of the connection or the [Database.Refresh()] of the reload
    raises reaches the caller as it was raised, each native call was
    made once, and no instance is returned: there is no retry and no
    recovery. *)
Theorem init_selects_database (connection_str : string) (srv : Server) :
  (forall e,
     Connect_answer srv connection_str = Some e ->
     __init__ connection_str srv = (Raise e, [Server_Connect connection_str]))
  /\ (Connect_answer srv connection_str = None ->
      srv_Databases_fault srv <> None
      \/ Forall (fun database => matches_Catalog srv database = false) (srv_Databases srv) ->
      __init__ connection_str srv
      = (Raise (Exception_ (err_msg srv)),
         [Server_Connect connection_str; logger_error (err_msg srv)]))
  /\ (forall before database after,
        Connect_answer srv connection_str = None ->
        srv_Databases_fault srv = None ->
        srv_Databases srv = before ++ database :: after ->
        Forall (fun database => matches_Catalog srv database = false) before ->
        matches_Catalog srv database = true ->
        match srv_Connection_fault srv, srv_Refresh_fault srv with
        | Some e, _ =>
            __init__ connection_str srv
            = (Raise e, [Server_Connect connection_str; Connection_init None])
        | None, Some e =>
            __init__ connection_str srv
            = (Raise e,
               [Server_Connect connection_str; Connection_init None; Database_Refresh])
        | None, None =>
            exists s t,
              __init__ connection_str srv = (Return s, t)
              /\ the_Database (world s) = database
              /\ Catalog (self s) = srv_Catalog srv
              /\ occurrences (Server_Connect connection_str) t = 1
        end).
Proof.
  split; [|split].
  - intros e He. unfold __init__, connect, bind, modify. cbn. by rewrite He.
  - intros Hc Hno. unfold __init__, connect, bind, modify, try_except. cbn.
    rewrite Hc. cbn. rewrite first_Database_run.
    destruct Hno as [Hf|Hno].
    + destruct (srv_Databases_fault srv); [done|congruence].
    + rewrite (filter_no_match _ _ Hno). by destruct (srv_Databases_fault srv).
  - intros before database after Hc Hf Hdbs Hb Hm.
    unfold __init__, connect, bind, modify, try_except. cbn -[Builtins.nested_for].
    rewrite Hc. cbn -[Builtins.nested_for]. rewrite first_Database_run, Hf, Hdbs.
    rewrite (filter_first _ _ _ _ Hb Hm). cbn -[Builtins.nested_for occurrences].
    destruct (srv_Connection_fault srv) as [e|]; [reflexivity|].
    cbn -[Builtins.nested_for occurrences].
    destruct (srv_Refresh_fault srv) as [e|]; [reflexivity|].
    cbn -[Builtins.nested_for occurrences].
    eexists _, _. split; [reflexivity|]. cbn -[occurrences]. repeat split.
    unfold occurrences. cbn.
    destruct (decide (Server_Connect connection_str = Server_Connect connection_str));
      done.
Qed.

Lemma init_selects_database_witness :
  Connect_answer Example.server "Data Source=localhost" = None
  /\ srv_Databases_fault Example.server = None
  /\ exists s t,
       __init__ "Data Source=localhost" Example.server = (Return s, t)
       /\ the_Database (world s) = Example.database Example.model.
Proof.
  split; [reflexivity|]. split; [reflexivity|].
  destruct (init_selects_database "Data Source=localhost" Example.server)
    as (_ & _ & H).
  destruct (H [{| db_Name := "Other"; db_CompatibilityLevel := 1200;
                  db_CompatibilityMode := 1; db_Model := Example.model |}]
              (Example.database Example.model) [])
    as (s & t & Hrun & Hdb & _); try reflexivity.
  { repeat constructor. }
  exists s, t. split; [exact Hrun|exact Hdb].
Defined.

(** C6, as it is stated, fails when listing the databases raises: the
    database named by the catalog is there, the native runtime raises
    "connection lost", and [__init__] raises its own exception on a
    database it could not find. *)
Lemma init_masks_native_error :
  Example.database Example.model ∈ srv_Databases Example.faulty_server
  /\ Some (db_Name (Example.database Example.model)) = srv_Catalog Example.faulty_server
  /\ srv_Databases_fault Example.faulty_server = Some (NativeError "connection lost")
  /\ (__init__ "Data Source=localhost" Example.faulty_server).1
     = Raise (Exception_ "Unable to find Database... AdventureWorks")
  /\ (__init__ "Data Source=localhost" Example.faulty_server).1
     <> Raise (NativeError "connection lost").
Proof.
  split; [right; left|]. repeat split. discriminate.
Qed.


(** ** Running a statement step by step *)

Lemma bind_run {S A B} (c : M S A) (k : A -> M S B) (s s' : S) (a : A) :
  c s = (Return a, s') -> bind c k s = k a s'.
Proof. intros Hc. unfold bind. by rewrite Hc. Qed.

Lemma gets_run {S A} (f : S -> A) (s : S) : gets f s = (Return (f s), s).
Proof. done. Qed.

Lemma string_length_app (s1 s2 : string) :
  String.length (s1 +:+ s2) = String.length s1 + String.length s2.
Proof. induction s1 as [|c s1 IH]; simpl; [done|]. by rewrite IH. Qed.

(** ** table.py: the methods that go back to the facade *)

(** X6. [PyTable.Refresh] and [PyTables.Refresh] ask the [Tabular]
    instance for [Refresh], but its method is [refresh]: on a facade
    whose native Model has no member [Refresh] either, both raise
    [AttributeError] and no refresh is started; on an empty [PyTables]
    the lookup of its first table raises [IndexError] before that. *)
Theorem Refresh_raises (table : PyTable.t) (tables : list PyTable.t) (s : State) :
  Model_has_member (oracle (world s)) "Refresh" = false ->
  PyTable_.Refresh table s = (Raise (AttributeError "Refresh"), s)
  /\ PyTables_.Refresh tables s
     = (Raise (match tables with
               | [] => IndexError
               | _ :: _ => AttributeError "Refresh"
               end), s).
Proof.
  intros Hmember.
  assert (Hget : getattr "Refresh" s = (Raise (AttributeError "Refresh"), s)).
  { unfold getattr, bind, gets. cbn. by rewrite Hmember. }
  split.
  - unfold PyTable_.Refresh, bind. by rewrite Hget.
  - unfold PyTables_.Refresh. destruct tables as [|first rest]; [reflexivity|].
    unfold bind at 1. cbn [Builtins.first ret]. unfold bind. by rewrite Hget.
Qed.

Lemma Refresh_raises_witness :
  Model_has_member (oracle (world Example.state)) "Refresh" = false
  /\ Tables (self Example.state) <> []
  /\ PyTables_.Refresh (Tables (self Example.state)) Example.state
     = (Raise (AttributeError "Refresh"), Example.state).
Proof.
  split; [reflexivity|]. split; [discriminate|].
  destruct (Refresh_raises (PyTable.__init__ Example.model 0)
              (Tables (self Example.state)) Example.state eq_refl) as [_ Hrun].
  exact Hrun.
Defined.

(** *** The text of the query *)

Lemma string_app_assoc (a b c : string) : (a +:+ b) +:+ c = a +:+ (b +:+ c).
Proof.
  induction a as [|x a IH]; [done|].
  change (String x ((a +:+ b) +:+ c) = String x (a +:+ b +:+ c)). by rewrite IH.
Qed.

Lemma substring_prefix (a b : string) : String.substring 0 (String.length a) (a +:+ b) = a.
Proof.
  induction a as [|x a IH].
  - by destruct b.
  - change (String x (String.substring 0 (String.length a) (a +:+ b)) = String x a).
    by rewrite IH.
Qed.

(** [(a + b)[:-len(b)]] is [a]. *)
Lemma until_last_app (a b : string) :
  StrMore.until_last (String.length b) (a +:+ b) = a.
Proof.
  unfold StrMore.until_last. rewrite string_length_app.
  replace (String.length a + String.length b - String.length b) with (String.length a)
    by lia.
  apply substring_prefix.
Qed.

Lemma ROW_ROW_text (table_name query_function : string) :
  PyTables_.ROW table_name query_function
  = ROW_text table_name query_function +:+ row_separator.
Proof.
  unfold PyTables_.ROW, ROW_text, row_separator.
  rewrite !string_app_assoc. reflexivity.
Qed.

(** The loop of [Query_All] reads the names and touches nothing. *)
Lemma accumulate_rows (query_function : string) (self : list PyTable.t) (s : State) :
  forall acc,
    PyTables_.accumulate self acc
      (fun query_str table =>
         table_name <- model (fun m => TOM.tbl_Name (TOM.table m (PyTable._object table))) ;;
         ret (query_str +:+ PyTables_.ROW table_name query_function)) s
    = (Return (foldl (fun query_str table =>
                        query_str +:+ PyTables_.ROW (table_Name (world s) table) query_function)
                     acc self), s).
Proof.
  induction self as [|table self IH]; intros acc; [reflexivity|].
  simpl. unfold bind at 1. cbn. apply IH.
Qed.

(** Rows that each end with the separator, one after the other, are the
    rows joined by the separator, and one separator more. *)
Lemma foldl_rows (query_function : string) (w : World) (self : list PyTable.t) :
  forall acc table,
    foldl (fun query_str table =>
             query_str +:+ PyTables_.ROW (table_Name w table) query_function)
          acc (table :: self)
    = (acc +:+ String.concat row_separator
                 ((fun table => ROW_text (table_Name w table) query_function)
                    <$> table :: self))
      +:+ row_separator.
Proof.
  induction self as [|next self IH]; intros acc table.
  - simpl. rewrite ROW_ROW_text, string_app_assoc. reflexivity.
  - change (foldl ?f acc (table :: next :: self))
      with (foldl f (acc +:+ PyTables_.ROW (table_Name w table) query_function)
                  (next :: self)).
    rewrite IH, ROW_ROW_text.
    change (String.concat row_separator
              ((fun table => ROW_text (table_Name w table) query_function)
                 <$> table :: next :: self))
      with (ROW_text (table_Name w table) query_function +:+ row_separator +:+
            String.concat row_separator
              ((fun table => ROW_text (table_Name w table) query_function)
                 <$> next :: self)).
    rewrite !string_app_assoc. reflexivity.
Qed.

Lemma query_str_of_run (self : list PyTable.t) (query_function : string) (s : State) :
  PyTables_.query_str_of self query_function s
  = (Return
       match self with
       | [] => "EVALUATE UNION)"
       | _ :: _ =>
           "EVALUATE UNION(" +:+ String Str.newline EmptyString +:+
           String.concat row_separator
             ((fun table => ROW_text (table_Name (world s) table) query_function) <$> self)
           +:+ ")"
       end, s).
Proof.
  unfold PyTables_.query_str_of.
  rewrite (bind_run _ _ _ _ _ (accumulate_rows query_function self s _)).
  destruct self as [|table self]; [reflexivity|].
  rewrite foldl_rows.
  change 2 with (String.length row_separator).
  rewrite until_last_app. cbn [ret]. rewrite !string_app_assoc. reflexivity.
Qed.

(** X7. The query [Query_All] builds for a non-empty [PyTables] is
    [EVALUATE UNION(], a line break, one [ROW(...)] for each table in
    order, the rows separated by a comma and a line break, and [)]:
    taking two characters off the end removes the separator after the
    last row. For an empty [PyTables] the two characters taken off are
    the opening parenthesis and the line break, and the text is
    [EVALUATE UNION)]. With the default function each row counts the
    rows of its table. Building the text changes nothing. *)
Theorem Query_All_query (self : list PyTable.t) (query_function : string) (s : State) :
  let rows :=
    (fun table => ROW_text (table_Name (world s) table) query_function) <$> self in
  PyTables_.query_str_of self query_function s
  = (Return
       match self with
       | [] => "EVALUATE UNION)"
       | _ :: _ =>
           "EVALUATE UNION(" +:+ String Str.newline EmptyString +:+
           String.concat row_separator rows +:+ ")"
       end, s)
  /\ forall table_name,
       StrMore.replace "_" ("'" +:+ table_name +:+ "'") "COUNTROWS(_)"
       = "COUNTROWS('" +:+ table_name +:+ "')".
Proof.
  split; [apply query_str_of_run|].
  intros table_name.
  change (StrMore.replace "_" ("'" +:+ table_name +:+ "'") "COUNTROWS(_)")
    with ("COUNTROWS(" +:+ ("'" +:+ table_name +:+ "'") +:+ ")").
  rewrite !string_app_assoc. reflexivity.
Qed.

(** X8. [Query_All] builds its query and then asks the [Tabular]
    instance for [Query], but its method is [query]: on a facade whose
    native Model has no member [Query] either, it raises
    [AttributeError], and on an empty [PyTables] [IndexError] at
    [self[0]] before that; in both cases no query is sent. *)
Theorem Query_All_raises (self : list PyTable.t) (query_function : string) (s : State) :
  Model_has_member (oracle (world s)) "Query" = false ->
  PyTables_.Query_All self query_function s
  = (Raise (match self with
            | [] => IndexError
            | _ :: _ => AttributeError "Query"
            end), s).
Proof.
  intros Hmember. unfold PyTables_.Query_All.
  rewrite (bind_run _ _ _ _ _ (query_str_of_run self query_function s)).
  destruct self as [|table self]; [reflexivity|].
  unfold bind at 1. cbn [Builtins.first ret].
  unfold getattr, bind, gets. cbn. by rewrite Hmember.
Qed.

Lemma Query_All_raises_witness :
  Model_has_member (oracle (world Example.state)) "Query" = false
  /\ Tables (self Example.state) <> []
  /\ PyTables_.Query_All (Tables (self Example.state)) "COUNTROWS(_)" Example.state
     = (Raise (AttributeError "Query"), Example.state).
Proof.
  split; [reflexivity|]. split; [discriminate|].
  apply (Query_All_raises (Tables (self Example.state)) "COUNTROWS(_)" Example.state).
  reflexivity.
Defined.

(** ** The facade after [reload_model_info] *)

Lemma wrapped_objects (object : nat) (l : list TOM.Ref) :
  child_object <$> ((fun child => {| child_object := child; child_Table := object |}) <$> l)
  = l.
Proof. rewrite <- list_fmap_compose. apply list_fmap_id. Qed.

Lemma fmap_concat {A B} (f : A -> B) (ls : list (list A)) :
  fmap (M := list) f (concat ls) = concat (fmap (M := list) (fmap (M := list) f) ls).
Proof.
  induction ls as [|l ls IH]; [done|]. simpl. by rewrite fmap_app, IH.
Qed.

(** X9. After [reload_model_info] the facade mirrors the metadata: one
    table wrapper for each table of the model, in order, each with a
    wrapper for every partition of its table that keeps that table as
    its own; the flat [Partitions], [Columns] and [Measures] wrap the
    partitions, columns and measures of the model, table after table;
    [Relationships] are those of the model. The metadata is not touched,
    and a second reload leaves the same facade. *)
Theorem reload_model_info_mirrors (s : State) :
  let m := Model (world s) in
  let s' := (reload_model_info s).2 in
  PyTable._object <$> Tables (self s') = TOM.Tables m
  /\ Forall built (Tables (self s'))
  /\ child_object <$> Partitions (self s')
     = concat (TOM.Partitions_GetEnumerator m <$> TOM.Tables m)
  /\ child_object <$> Columns (self s')
     = concat (TOM.Columns_GetEnumerator m <$> TOM.Tables m)
  /\ child_object <$> Measures (self s')
     = concat (TOM.Measures_GetEnumerator m <$> TOM.Tables m)
  /\ Relationships (self s') = TOM.Relationships m
  /\ Model (world s') = m
  /\ self (reload_model_info s').2 = self s'.
Proof.
  intros m s'.
  assert (Hagain : self (reload_model_info s').2 = self s') by reflexivity.
  revert Hagain.
  destruct (reload_model_info_run s) as (s1 & E & HT & HP & HC & HM & HR & _ & _ & Hw).
  assert (Hs' : s' = s1) by (subst s'; by rewrite E). rewrite Hs'. clear Hs' s' E.
  intros Hagain.
  fold m in HT, HR.
  assert (Hm : Model (world s1) = m) by (by rewrite Hw).
  split. { rewrite HT, <- list_fmap_compose. apply list_fmap_id. }
  split.
  { rewrite HT. apply Forall_fmap, Forall_forall. intros t _.
    unfold built. cbn. apply Forall_fmap, Forall_fmap, Forall_forall. intros slot _.
    split; [reflexivity|]. by exists slot. }
  assert (Hflat : forall (field : PyTable.t -> list PyChild)
                         (enumerator : TOM.Model -> nat -> list TOM.Ref),
            (forall t, child_object <$> field (PyTable.__init__ m t) = enumerator m t) ->
            child_object <$> Builtins.nested_for (Tables (self s1)) field
            = concat (enumerator m <$> TOM.Tables m)).
  { intros field enumerator Hfield.
    rewrite nested_for_concat, fmap_concat, HT, <- !list_fmap_compose.
    f_equal. apply list_fmap_ext. intros i t _. apply Hfield. }
  split. { rewrite HP. apply Hflat. intros t. apply wrapped_objects. }
  split. { rewrite HC. apply Hflat. intros t. apply wrapped_objects. }
  split. { rewrite HM. apply Hflat. intros t. apply wrapped_objects. }
  split; [exact HR|]. split; [exact Hm|]. exact Hagain.
Qed.

(** ** A new instance *)

(** X10. Whenever [Tabular(connection_str)] returns an instance, what
    it did on the native side is, in this order: one [Server.Connect],
    one ADOMD connection without an effective user, one
    [Database.Refresh] (the reload), and the registration of
    [disconnect] at exit. The instance holds a database of the server
    that matches the catalog, with its compatibility level and mode, an
    empty [Effective_Users], a connected server, and nothing saved yet. *)
Theorem init_fresh_instance (connection_str : string) (srv : Server) (s : State)
    (t : list Event) :
  __init__ connection_str srv = (Return s, t) ->
  t = [Server_Connect connection_str; Connection_init None; Database_Refresh;
       atexit_register "disconnect"]
  /\ trace (world s) = t
  /\ the_Database (world s) ∈ srv_Databases srv
  /\ matches_Catalog srv (the_Database (world s)) = true
  /\ CompatibilityLevel (self s) = db_CompatibilityLevel (the_Database (world s))
  /\ CompatibilityMode (self s) = db_CompatibilityMode (the_Database (world s))
  /\ Adomd (self s)
     = {| conn_id := 0; conn_effective_user := None;
          ConnectionString := srv_ConnectionString srv |}
  /\ Effective_Users (self s) = ∅
  /\ Server_Connected (world s) = true
  /\ connections_made (world s) = 1
  /\ saves_done (world s) = 0.
Proof.
  unfold __init__, connect, bind, modify, try_except. cbn -[Builtins.nested_for].
  destruct (Connect_answer srv connection_str); [discriminate|].
  cbn -[Builtins.nested_for]. rewrite first_Database_run.
  destruct (srv_Databases_fault srv); [discriminate|].
  destruct (List.filter _ _) as [|database rest] eqn:Hfilter; [discriminate|].
  cbn -[Builtins.nested_for].
  destruct (srv_Connection_fault srv); [discriminate|].
  cbn -[Builtins.nested_for].
  destruct (srv_Refresh_fault srv); [discriminate|].
  cbn -[Builtins.nested_for]. intros [= <- <-]. cbn -[Builtins.nested_for].
  assert (Hin : In database (List.filter (matches_Catalog srv) (srv_Databases srv)))
    by (rewrite Hfilter; by left).
  apply filter_In in Hin as [Hin Hmatch].
  repeat split; try done. by apply list_elem_of_In.
Qed.

Lemma init_fresh_instance_witness :
  exists s t,
    __init__ "Data Source=localhost" Example.server = (Return s, t)
    /\ t = [Server_Connect "Data Source=localhost"; Connection_init None; Database_Refresh;
            atexit_register "disconnect"].
Proof.
  exists (match (__init__ "Data Source=localhost" Example.server).1 with
          | Return s => s
          | Raise _ => Example.state
          end),
         (__init__ "Data Source=localhost" Example.server).2.
  assert (Hrun : __init__ "Data Source=localhost" Example.server
                 = (Return (match (__init__ "Data Source=localhost" Example.server).1 with
                            | Return s => s
                            | Raise _ => Example.state
                            end),
                    (__init__ "Data Source=localhost" Example.server).2))
    by (vm_compute; reflexivity).
  split; [exact Hrun|].
  apply (init_fresh_instance "Data Source=localhost" Example.server _ _ Hrun).
Defined.


(** ** [backup_table] and [revert_table] *)

Lemma metadata_untouched (s : State) :
  with_world (with_Model (fun _ => Model (world s))) s = s.
Proof. by destruct s as [o [? ? ? [] ? ? ? ?]]. Qed.

(** C3, as the code has it. [backup_table] begins with
    [self.Model.Tables.find(table_str)]: where the native collections
    have no member [find], that lookup raises [AttributeError], whatever
    the table name and whether the model has such a table. Nothing has
    been cloned, renamed or added by then, nothing is refreshed or
    saved, and [True] is not returned. *)
Theorem backup_table_raises_at_find (table_str : string) (s : State) :
  Collection_has_member (oracle (world s)) "find" = false ->
  backup_table table_str s = (Raise (AttributeError "find"), s).
Proof.
  intros Hfind. unfold backup_table.
  rewrite (bind_run _ _ s s false) by (by rewrite gets_run, Hfind).
  unfold bind, metadata, Collection_getattr. cbn.
  by rewrite metadata_untouched.
Qed.

Lemma backup_table_raises_at_find_witness :
  TOM.named (Model (world Example.state)) "Sales" = Some 0
  /\ Collection_has_member (oracle (world Example.state)) "find" = false
  /\ backup_table "Sales" Example.state
     = (Raise (AttributeError "find"), Example.state).
Proof.
  split; [reflexivity|]. split; [reflexivity|].
  apply (backup_table_raises_at_find "Sales" Example.state). reflexivity.
Defined.


